(** * matrix-nio: sync-response decoding and to-device envelopes

    A shallow embedding of [nio/responses.py] and
    [nio/event_builders/direct_messages.py].

    Python values that come out of the JSON parser are the type [json];
    Python's [None] and JSON's [null] are the same value there, [JNull].
    A [dict] is its item list in insertion order, with pairwise distinct
    keys in every parsed payload; item access takes the first binding.
    Numbers are integers (the code never computes with them) and strings
    are strings of bytes.

    Exceptions are explicit: every function that can raise returns a
    [result].  The two exceptions of the schema library are the only ones
    the code catches; [KeyError], [TypeError] and [AttributeError] are the
    ones subscripting, [in], iteration and [.keys()] raise on a value of
    the wrong shape.  Printing and logging are left out; the [__str__]
    methods are modelled as functions to strings. *)

From Stdlib Require Import String Ascii List ZArith Bool Lia.
From Stdlib Require Import DecimalString.
Import ListNotations.
Open Scope string_scope.
Open Scope list_scope.

(** ** Python values *)

#[warnings="-register-all"]
Inductive json : Type :=
| JNull
| JBool (b : bool)
| JNum (n : Z)
| JStr (s : string)
| JArr (xs : list json)
| JObj (items : list (string * json)).

(** ** Exceptions *)

(** The exceptions of [jsonschema.exceptions] that the decoders catch. *)
Inductive schema_exn : Type := ValidationError | SchemaError.

Inductive exn : Type :=
| SchemaExn (e : schema_exn)
| KeyError (k : string)
| TypeError
| AttributeError.

Inductive result (A : Type) : Type :=
| Ok (a : A)
| Raise (e : exn).
Arguments Ok {A} a.
Arguments Raise {A} e.

Definition bind {A B} (c : result A) (k : A -> result B) : result B :=
  match c with
  | Ok a => k a
  | Raise e => Raise e
  end.

Declare Scope py_scope.
Delimit Scope py_scope with py.
Notation "x <- c ;; k" := (bind c (fun x => k))
  (at level 61, c at next level, right associativity) : py_scope.
Notation "c ;;; k" := (bind c (fun _ => k))
  (at level 61, right associativity) : py_scope.
Open Scope py_scope.

(** [try: body except (SchemaError, ValidationError): handler] *)
Definition try_except {A} (body : result A) (handler : schema_exn -> result A)
  : result A :=
  match body with
  | Raise (SchemaExn e) => handler e
  | other => other
  end.

(** ** Python primitives on parsed values *)

Fixpoint lookup {V} (k : string) (items : list (string * V)) : option V :=
  match items with
  | [] => None
  | (k', v) :: rest => if String.eqb k' k then Some v else lookup k rest
  end.

(** [d[k]] for a string key [k] *)
Definition getitem (d : json) (k : string) : result json :=
  match d with
  | JObj items =>
      match lookup k items with
      | Some v => Ok v
      | None => Raise (KeyError k)
      end
  | _ => Raise TypeError
  end.

(** [v == s] for a string literal [s] *)
Definition eq_str (v : json) (s : string) : bool :=
  match v with
  | JStr s' => String.eqb s' s
  | _ => false
  end.

Fixpoint is_substring (s t : string) : bool :=
  String.prefix s t ||
  match t with
  | EmptyString => false
  | String _ t' => is_substring s t'
  end.

(** [k in d] for a string literal [k]: key membership on a dict, element
    membership on a list, substring on a string, [TypeError] otherwise. *)
Definition contains (k : string) (d : json) : result bool :=
  match d with
  | JObj items =>
      Ok (match lookup k items with Some _ => true | None => false end)
  | JArr xs => Ok (existsb (fun x => eq_str x k) xs)
  | JStr s => Ok (is_substring k s)
  | _ => Raise TypeError
  end.

Fixpoint chars (s : string) : list json :=
  match s with
  | EmptyString => []
  | String c s' => JStr (String c EmptyString) :: chars s'
  end.

(** [for x in v]: the elements of a list, the keys of a dict, the
    characters of a string. *)
Definition iter (v : json) : result (list json) :=
  match v with
  | JArr xs => Ok xs
  | JObj items => Ok (map (fun kv => JStr (fst kv)) items)
  | JStr s => Ok (chars s)
  | _ => Raise TypeError
  end.

(** [d.items()] (and [d.keys()] as its first projections) *)
Definition dict_items (d : json) : result (list (string * json)) :=
  match d with
  | JObj items => Ok items
  | _ => Raise AttributeError
  end.

(** [d[k] = v] on a dict held as its item list *)
Fixpoint dict_set {V} (k : string) (v : V) (items : list (string * V))
  : list (string * V) :=
  match items with
  | [] => [(k, v)]
  | (k', v') :: rest =>
      if String.eqb k' k then (k', v) :: rest
      else (k', v') :: dict_set k v rest
  end.

(** ** External collaborators: [nio/schemas.py] and [nio/api.py] *)

Module Schemas.
Inductive t : Type :=
| room_event
| redacted_event
| room_message
| room_message_text
| room_timeline
| sync
| login
| error.
End Schemas.

(** [validate_json(instance, schema)] returns normally ([None]) or raises
    one of the two schema exceptions. *)
Class SchemaValidator : Type :=
  validate_json : json -> Schemas.t -> option schema_exn.

(** [Api.to_json(content_dict)] *)
Class Api : Type :=
  to_json : json -> string.

Definition validate `{SchemaValidator} (instance : json) (schema : Schemas.t)
  : result unit :=
  match validate_json instance schema with
  | None => Ok tt
  | Some e => Raise (SchemaExn e)
  end.

(** ** Event model *)

Inductive Event : Type :=
| BadEvent (event_id sender server_timestamp type : json) (source : string)
| RedactedEvent
    (event_id sender server_timestamp event_type redacter reason : json)
| RoomMessageText
    (event_id sender server_timestamp body formatted_body format : json).

(** An element of [Timeline.events]: [RoomMessage.from_dict] may hand back
    [None], and the caller appends whatever it gets. *)
Definition entry : Type := option Event.

Record Timeline : Type := mkTimeline {
  events : list entry;
  limited : json;
  prev_batch : json
}.

Record JoindedInfo : Type := mkJoindedInfo {
  timeline : Timeline;
  state : list json
}.

Record RoomInfo : Type := mkRoomInfo {
  invite : list (string * json);
  join : list (string * option JoindedInfo);
  leave : list (string * json)
}.

Inductive Response : Type :=
| ErrorResponse (message code : json)
| LoginResponse (user_id device_id access_token : json)
| SyncRepsponse (next_batch : json) (rooms : RoomInfo) (partial : bool).

(** ** Event decoders *)

Module BadEvent.
Definition from_dict `{Api} (parsed_dict : json) : result Event :=
  event_id <- getitem parsed_dict "event_id" ;;
  sender <- getitem parsed_dict "sender" ;;
  server_ts <- getitem parsed_dict "origin_server_ts" ;;
  event_type <- getitem parsed_dict "type" ;;
  Ok (BadEvent event_id sender server_ts event_type (to_json parsed_dict)).
End BadEvent.

Module RedactedEvent.
Definition from_dict `{SchemaValidator} `{Api} (parsed_dict : json)
  : result Event :=
  match validate_json parsed_dict Schemas.redacted_event with
  | Some _ => BadEvent.from_dict parsed_dict
  | None =>
      unsigned <- getitem parsed_dict "unsigned" ;;
      because <- getitem unsigned "redacted_because" ;;
      redacter <- getitem because "sender" ;;
      unsigned' <- getitem parsed_dict "unsigned" ;;
      because' <- getitem unsigned' "redacted_because" ;;
      content_dict <- getitem because' "content" ;;
      has_reason <- contains "reason" content_dict ;;
      reason <- (if has_reason : bool then getitem content_dict "reason"
                 else Ok JNull) ;;
      event_id <- getitem parsed_dict "event_id" ;;
      sender <- getitem parsed_dict "sender" ;;
      server_ts <- getitem parsed_dict "origin_server_ts" ;;
      event_type <- getitem parsed_dict "type" ;;
      Ok (RedactedEvent event_id sender server_ts event_type redacter reason)
  end.
End RedactedEvent.

Module RoomMessageText.
Definition from_dict `{SchemaValidator} `{Api} (parsed_dict : json)
  : result Event :=
  match validate_json parsed_dict Schemas.room_message_text with
  | Some _ => BadEvent.from_dict parsed_dict
  | None =>
      content <- getitem parsed_dict "content" ;;
      body <- getitem content "body" ;;
      content1 <- getitem parsed_dict "content" ;;
      has_formatted <- contains "formatted_body" content1 ;;
      formatted_body <-
        (if has_formatted : bool then
           content2 <- getitem parsed_dict "content" ;;
           getitem content2 "formatted_body"
         else Ok JNull) ;;
      content3 <- getitem parsed_dict "content" ;;
      has_format <- contains "format" content3 ;;
      body_format <-
        (if has_format : bool then
           content4 <- getitem parsed_dict "content" ;;
           getitem content4 "format"
         else Ok JNull) ;;
      event_id <- getitem parsed_dict "event_id" ;;
      sender <- getitem parsed_dict "sender" ;;
      server_ts <- getitem parsed_dict "origin_server_ts" ;;
      Ok (RoomMessageText event_id sender server_ts
            body formatted_body body_format)
  end.
End RoomMessageText.

Module RoomMessage.
(** [olm] is accepted and not used. *)
Definition from_dict `{SchemaValidator} `{Api} {Olm : Type}
    (parsed_dict : json) (olm : option Olm) : result entry :=
  match validate_json parsed_dict Schemas.room_message with
  | Some _ =>
      bad <- BadEvent.from_dict parsed_dict ;; Ok (Some bad)
  | None =>
      content_dict <- getitem parsed_dict "content" ;;
      msgtype <- getitem content_dict "msgtype" ;;
      if eq_str msgtype "m.text" then
        text <- RoomMessageText.from_dict parsed_dict ;; Ok (Some text)
      else
        Ok None
  end.
End RoomMessage.

(** ** Responses *)

Module ErrorResponse.
(** [cls(message, code="")] *)
Definition init (message : json) (code : option json) : Response :=
  ErrorResponse message (match code with Some c => c | None => JStr "" end).

Definition from_dict `{SchemaValidator} (parsed_dict : json)
  : result Response :=
  match validate_json parsed_dict Schemas.error with
  | Some _ => Ok (init (JStr "Unknown error") None)
  | None =>
      message <- getitem parsed_dict "error" ;;
      code <- getitem parsed_dict "errcode" ;;
      Ok (init message (Some code))
  end.
End ErrorResponse.

Module SyncRepsponse.
Section Decoder.
Context `{SchemaValidator} `{Api} {Olm : Type}.

(** The statements of the [try] block after [validate_json]: the list
    [events] once they have run on [event_dict]. *)
Definition dispatch (olm : option Olm) (event_dict : json)
    (events : list entry) : result (list entry) :=
  has_unsigned <- contains "unsigned" event_dict ;;
  redacted <-
    (if has_unsigned : bool then
       unsigned <- getitem event_dict "unsigned" ;;
       contains "redacted_because" unsigned
     else Ok false) ;;
  if redacted : bool then
    ev <- RedactedEvent.from_dict event_dict ;;
    Ok (events ++ [Some ev])
  else
    event_type <- getitem event_dict "type" ;;
    if eq_str event_type "m.room.message" then
      ev <- RoomMessage.from_dict event_dict olm ;;
      Ok (events ++ [ev])
    else
      Ok events.

(** One turn of the loop of [_get_room_events]: the [try] block, and the
    handler that prints the error and goes on. *)
Definition room_event_body (olm : option Olm) (event_dict : json)
    (events : list entry) : result (list entry) :=
  try_except
    (validate event_dict Schemas.room_event ;;; dispatch olm event_dict events)
    (fun _ => Ok events).

Fixpoint room_events_loop (olm : option Olm) (todo : list json)
    (events : list entry) : result (list entry) :=
  match todo with
  | [] => Ok events
  | event_dict :: rest =>
      events' <- room_event_body olm event_dict events ;;
      room_events_loop olm rest events'
  end.

Definition _get_room_events (parsed_dict : json) (max_events : Z)
    (olm : option Olm) : result (list entry) :=
  todo <- iter parsed_dict ;;
  room_events_loop olm todo [].

Definition _get_timeline (parsed_dict : json) (max_events : Z)
    (olm : option Olm) : result Timeline :=
  validate parsed_dict Schemas.room_timeline ;;;
  raw_events <- getitem parsed_dict "events" ;;
  events <- _get_room_events raw_events max_events olm ;;
  limited <- getitem parsed_dict "limited" ;;
  prev_batch <- getitem parsed_dict "prev_batch" ;;
  Ok (mkTimeline events limited prev_batch).

(** The loop of [_get_room_info] over [parsed_dict["join"].items()];
    [_get_timeline] is called with its defaults, [max_events=0] and
    [olm=None]. *)
Fixpoint joined_rooms_loop (todo : list (string * json))
    (joined_rooms : list (string * option JoindedInfo))
  : result (list (string * option JoindedInfo)) :=
  match todo with
  | [] => Ok joined_rooms
  | (room_id, room_dict) :: rest =>
      raw_timeline <- getitem room_dict "timeline" ;;
      timeline <- _get_timeline raw_timeline 0 None ;;
      let state := [] in
      let info := mkJoindedInfo timeline state in
      joined_rooms_loop rest (dict_set room_id (Some info) joined_rooms)
  end.

Definition _get_room_info (parsed_dict : json) (max_events : Z)
    (olm : option Olm) : result RoomInfo :=
  joined <- getitem parsed_dict "join" ;;
  keys <- dict_items joined ;;
  let joined_rooms :=
    fold_left (fun d kv => dict_set (fst kv) None d) keys [] in
  let invited_rooms := [] in
  let left_rooms := [] in
  joined' <- getitem parsed_dict "join" ;;
  items <- dict_items joined' ;;
  joined_rooms' <- joined_rooms_loop items joined_rooms ;;
  Ok (mkRoomInfo invited_rooms joined_rooms' left_rooms).

Definition from_dict (parsed_dict : json) (max_events : Z)
    (olm : option Olm) : result Response :=
  let partial := false in
  match
    validate parsed_dict Schemas.sync ;;;
    raw_rooms <- getitem parsed_dict "rooms" ;;
    _get_room_info raw_rooms max_events olm
  with
  | Raise (SchemaExn _) => ErrorResponse.from_dict parsed_dict
  | Raise e => Raise e
  | Ok rooms =>
      next_batch <- getitem parsed_dict "next_batch" ;;
      Ok (SyncRepsponse next_batch rooms partial)
  end.
End Decoder.
End SyncRepsponse.

(** ** To-device messages ([event_builders/direct_messages.py]) *)

(** The base class [EventBuilder]: something that renders with [as_dict]. *)
Class EventBuilder (A : Type) : Type :=
  as_dict : A -> json.

Module ToDeviceMessage.
Record t : Type := mk {
  type : string;
  recipient : string;
  recipient_device : string;
  content : json
}.

Definition as_dict (self : t) : json :=
  JObj [("messages",
         JObj [(recipient self,
                JObj [(recipient_device self, content self)])])].
End ToDeviceMessage.

#[export] Instance ToDeviceMessage_builder : EventBuilder ToDeviceMessage.t :=
  ToDeviceMessage.as_dict.

(** A subclass with no attribute and no method of its own. *)
Module DummyMessage.
Record t : Type := mk { super : ToDeviceMessage.t }.
End DummyMessage.

#[export] Instance DummyMessage_builder : EventBuilder DummyMessage.t :=
  fun self => ToDeviceMessage.as_dict (DummyMessage.super self).

(** A subclass with four more attributes; [as_dict] is inherited. *)
Module RoomKeyRequestMessage.
Record t : Type := mk {
  super : ToDeviceMessage.t;
  request_id : string;
  session_id : string;
  room_id : string;
  algorithm : string
}.
End RoomKeyRequestMessage.

#[export] Instance RoomKeyRequestMessage_builder
  : EventBuilder RoomKeyRequestMessage.t :=
  fun self => ToDeviceMessage.as_dict (RoomKeyRequestMessage.super self).

(** ** What the decoders rely on from each schema

    After a schema has accepted a payload the code subscripts the payload
    without a further check.  [SchemaContract] lists, schema by schema,
    the shape those subscripts need. *)

Definition is_dict (v : json) : Prop := exists items, v = JObj items.

Definition has_key (d : json) (k : string) : Prop :=
  exists v, getitem d k = Ok v.

Definition accepts `{SchemaValidator} (schema : Schemas.t) (p : json) : Prop :=
  validate_json p schema = None.

Definition error_sound `{SchemaValidator} : Prop :=
  forall p, accepts Schemas.error p ->
    has_key p "error" /\ has_key p "errcode".

Definition room_event_sound `{SchemaValidator} : Prop :=
  forall p, accepts Schemas.room_event p ->
    is_dict p /\
    has_key p "event_id" /\ has_key p "sender" /\
    has_key p "origin_server_ts" /\ has_key p "type" /\
    (forall u, getitem p "unsigned" = Ok u -> is_dict u).

Definition redacted_event_sound `{SchemaValidator} : Prop :=
  forall p, accepts Schemas.redacted_event p ->
    exists u because content,
      getitem p "unsigned" = Ok u /\
      getitem u "redacted_because" = Ok because /\
      has_key because "sender" /\
      getitem because "content" = Ok content /\ is_dict content.

Definition room_message_sound `{SchemaValidator} : Prop :=
  forall p, accepts Schemas.room_message p ->
    exists content, getitem p "content" = Ok content /\
                    has_key content "msgtype".

Definition room_message_text_sound `{SchemaValidator} : Prop :=
  forall p, accepts Schemas.room_message_text p ->
    exists content, getitem p "content" = Ok content /\
                    has_key content "body".

Definition room_timeline_sound `{SchemaValidator} : Prop :=
  forall p, accepts Schemas.room_timeline p ->
    (exists evs, getitem p "events" = Ok (JArr evs)) /\
    has_key p "limited" /\ has_key p "prev_batch".

(** The timeline of a joined room is there and the room-timeline schema
    rejects it. *)
Definition timeline_rejected `{SchemaValidator} (room_dict : json) : Prop :=
  exists raw, getitem room_dict "timeline" = Ok raw /\
              ~ accepts Schemas.room_timeline raw.

Definition sync_sound `{SchemaValidator} : Prop :=
  forall p, accepts Schemas.sync p ->
    has_key p "next_batch" /\
    exists raw_rooms items,
      getitem p "rooms" = Ok raw_rooms /\
      getitem raw_rooms "join" = Ok (JObj items) /\
      Forall (fun kv => has_key (snd kv) "timeline") items.

Class SchemaContract `{SchemaValidator} : Prop := {
  contract_error : error_sound;
  contract_room_event : room_event_sound;
  contract_redacted_event : redacted_event_sound;
  contract_room_message : room_message_sound;
  contract_room_message_text : room_message_text_sound;
  contract_room_timeline : room_timeline_sound;
  contract_sync : sync_sound
}.

(** ** Vocabulary of the properties *)

(** A computation that does not end in one of the exceptions the decoders
    catch. *)
Definition no_schema_exn {A} (r : result A) : Prop :=
  match r with
  | Raise (SchemaExn _) => False
  | _ => True
  end.

(** [d[k] if k in d else None] *)
Definition or_none (o : option json) : json :=
  match o with
  | Some v => v
  | None => JNull
  end.

Definition field_or_none (d : json) (k : string) : json :=
  match d with
  | JObj items => or_none (lookup k items)
  | _ => JNull
  end.

(** The payload carries no [unsigned.redacted_because]. *)
Definition no_redaction_marker (p : json) : Prop :=
  forall u, getitem p "unsigned" = Ok u ->
            contains "redacted_because" u = Ok false.

Definition is_bad_event (ev : Event) : bool :=
  match ev with BadEvent _ _ _ _ _ => true | _ => false end.

(** [decodes_to olm event_dict ev]: the loop body appends the event [ev]
    for [event_dict], whatever it has collected so far. *)
Definition decodes_to `{SchemaValidator} `{Api} {Olm : Type}
    (olm : option Olm) (event_dict : json) (ev : Event) : Prop :=
  forall events,
    SyncRepsponse.room_event_body olm event_dict events
    = Ok (events ++ [Some ev]).

(** ** A concrete validator and serialiser

    One validator that keeps the contract, and one serialiser, to run the
    decoders on sample payloads. *)

Module Wire.
Definition is_str (v : json) : bool :=
  match v with JStr _ => true | _ => false end.
Definition is_int (v : json) : bool :=
  match v with JNum _ => true | _ => false end.
Definition is_bool (v : json) : bool :=
  match v with JBool _ => true | _ => false end.
Definition is_arr (v : json) : bool :=
  match v with JArr _ => true | _ => false end.
Definition is_obj (v : json) : bool :=
  match v with JObj _ => true | _ => false end.

(** a required property of an object *)
Definition required (d : json) (k : string) (check : json -> bool) : bool :=
  match getitem d k with
  | Ok v => check v
  | Raise _ => false
  end.

(** a property of an object that may be left out *)
Definition optional (d : json) (k : string) (check : json -> bool) : bool :=
  match d with
  | JObj items =>
      match lookup k items with
      | Some v => check v
      | None => true
      end
  | _ => false
  end.

Definition room_event (p : json) : bool :=
  required p "event_id" is_str && required p "sender" is_str &&
  required p "origin_server_ts" is_int && required p "type" is_str &&
  required p "content" is_obj && optional p "unsigned" is_obj.

Definition redacted_event (p : json) : bool :=
  required p "unsigned" (fun u =>
    required u "redacted_because" (fun because =>
      required because "sender" is_str &&
      required because "content" (fun c => optional c "reason" is_str))).

Definition room_message (p : json) : bool :=
  required p "content" (fun c => required c "msgtype" is_str).

Definition room_message_text (p : json) : bool :=
  required p "content" (fun c =>
    required c "msgtype" (fun m => eq_str m "m.text") &&
    required c "body" is_str &&
    optional c "formatted_body" is_str && optional c "format" is_str).

Definition room_timeline (p : json) : bool :=
  required p "events" is_arr && required p "limited" is_bool &&
  required p "prev_batch" is_str.

Definition sync (p : json) : bool :=
  required p "next_batch" is_str &&
  required p "rooms" (fun raw_rooms =>
    required raw_rooms "join" (fun joined =>
      match joined with
      | JObj items =>
          forallb (fun kv => required (snd kv) "timeline" is_obj) items
      | _ => false
      end)).

Definition login (p : json) : bool :=
  required p "user_id" is_str && required p "device_id" is_str &&
  required p "access_token" is_str.

Definition error (p : json) : bool :=
  required p "error" is_str && required p "errcode" is_str.

(** Modelled from the spec: the schema table [Schemas] of
    [nio/schemas.py], whose source is not available.  The shapes are the
    wire shapes the spec lists: a sync payload with [next_batch] and
    [rooms.join.<room_id>.timeline.{events[], limited, prev_batch}];
    an event with [event_id], [sender], [origin_server_ts], [type],
    [content] and an optional
    [unsigned.redacted_because.{sender, content.reason}]; a message
    content with [msgtype] and, for a text message, [body]; a login
    answer with [user_id], [device_id] and [access_token]; an error with
    [error] and [errcode]. *)
Definition conforms (schema : Schemas.t) : json -> bool :=
  match schema with
  | Schemas.room_event => room_event
  | Schemas.redacted_event => redacted_event
  | Schemas.room_message => room_message
  | Schemas.room_message_text => room_message_text
  | Schemas.room_timeline => room_timeline
  | Schemas.sync => sync
  | Schemas.login => login
  | Schemas.error => error
  end.

(** Modelled from the spec: [validate_json] of [nio/schemas.py], whose
    source is not available; it accepts the payloads that conform to the
    named schema and raises [ValidationError] on the others. *)
Definition validator : SchemaValidator :=
  fun instance schema =>
    if conforms schema instance then None else Some ValidationError.

(** A validator that accepts every payload; it does not keep the
    contract. *)
Definition lax : SchemaValidator := fun _ _ => None.

#[local] Open Scope string_scope.

Definition dquote : string := String (ascii_of_nat 34) EmptyString.

Fixpoint escape (s : string) : string :=
  match s with
  | EmptyString => EmptyString
  | String c s' =>
      if Ascii.eqb c (ascii_of_nat 34) || Ascii.eqb c (ascii_of_nat 92)
      then String (ascii_of_nat 92) (String c (escape s'))
      else String c (escape s')
  end.

Definition quoted (s : string) : string := dquote ++ escape s ++ dquote.

Fixpoint commas (parts : list string) : string :=
  match parts with
  | [] => EmptyString
  | [x] => x
  | x :: rest => x ++ "," ++ commas rest
  end.

Definition digits (n : Z) : string :=
  NilZero.string_of_int (Z.to_int n).

(** Modelled from the spec: [Api.to_json] of [nio/api.py], whose source
    is not available; the payload serialised as compact JSON text, keys
    in the payload's own order. *)
Fixpoint serialise (v : json) : string :=
  match v with
  | JNull => "null"
  | JBool true => "true"
  | JBool false => "false"
  | JNum n => digits n
  | JStr s => quoted s
  | JArr xs => "[" ++ commas (map serialise xs) ++ "]"
  | JObj items =>
      "{" ++
      commas (map (fun kv => quoted (fst kv) ++ ":" ++ serialise (snd kv))
                  items) ++
      "}"
  end.

Definition api : Api := serialise.
End Wire.

(** ** Sample payloads *)

Module Samples.
Definition message_event (event_id : string) (content : json) : json :=
  JObj [("event_id", JStr event_id); ("sender", JStr "@a:x");
        ("origin_server_ts", JNum 100); ("type", JStr "m.room.message");
        ("content", content)].

Definition text_content (body : string) : json :=
  JObj [("msgtype", JStr "m.text"); ("body", JStr body)].

(** the text message of the spec's first testable property *)
Definition hi : json := message_event "$1" (text_content "hi").

Definition bye : json := message_event "$4" (text_content "bye").

(** the same message with [msgtype = "m.notice"] *)
Definition notice : json :=
  message_event "$1" (JObj [("msgtype", JStr "m.notice"); ("body", JStr "hi")]).

(** a message whose content has no [msgtype] *)
Definition no_msgtype : json :=
  message_event "$5" (JObj [("body", JStr "hi")]).

(** [hi] without its [sender] *)
Definition no_sender : json :=
  JObj [("event_id", JStr "$2"); ("origin_server_ts", JNum 100);
        ("type", JStr "m.room.message"); ("content", text_content "hi")].

Definition redaction (content : json) : json :=
  JObj [("redacted_because",
         JObj [("sender", JStr "@mod:x"); ("content", content)])].

(** a redacted message: the redaction carries a reason *)
Definition redacted : json :=
  JObj [("event_id", JStr "$3"); ("sender", JStr "@a:x");
        ("origin_server_ts", JNum 100); ("type", JStr "m.room.message");
        ("content", JObj []);
        ("unsigned", redaction (JObj [("reason", JStr "spam")]))].

(** a redaction marker that lacks the redacter *)
Definition badly_redacted : json :=
  JObj [("event_id", JStr "$6"); ("sender", JStr "@a:x");
        ("origin_server_ts", JNum 100); ("type", JStr "m.room.message");
        ("content", text_content "hi");
        ("unsigned", JObj [("redacted_because", JObj [])])].

Definition room (raw_events : list json) : json :=
  JObj [("timeline",
         JObj [("events", JArr raw_events); ("limited", JBool false);
               ("prev_batch", JStr "p0")])].

Definition sync_payload (joined : list (string * json)) : json :=
  JObj [("next_batch", JStr "s1"); ("rooms", JObj [("join", JObj joined)])].

(** a room whose timeline has no [events] *)
Definition broken_room : json :=
  JObj [("timeline",
         JObj [("limited", JBool false); ("prev_batch", JStr "p0")])].

(** a sync payload whose [rooms] has no [join] *)
Definition no_join : json :=
  JObj [("next_batch", JStr "s1"); ("rooms", JObj [("leave", JObj [])])].

Definition server_error : json :=
  JObj [("errcode", JStr "M_FORBIDDEN"); ("error", JStr "Forbidden")].
End Samples.

(** ** Login ([LoginResponse.from_dict]) *)

Module LoginResponse.
Definition from_dict `{SchemaValidator} (parsed_dict : json)
  : result Response :=
  match validate_json parsed_dict Schemas.login with
  | Some _ => ErrorResponse.from_dict parsed_dict
  | None =>
      user_id <- getitem parsed_dict "user_id" ;;
      device_id <- getitem parsed_dict "device_id" ;;
      access_token <- getitem parsed_dict "access_token" ;;
      Ok (LoginResponse user_id device_id access_token)
  end.
End LoginResponse.

(** What [LoginResponse.from_dict] relies on from the login schema. *)
Definition login_sound `{SchemaValidator} : Prop :=
  forall p, accepts Schemas.login p ->
    has_key p "user_id" /\ has_key p "device_id" /\ has_key p "access_token".

(** ** Rendering ([__str__])

    [str.format] with [{}] fields puts [str] of each argument in place,
    which is written out here as a concatenation.  The text of a list or a
    dict is Python's [repr] of it, which differs between interpreter
    versions; it is a parameter. *)

Class ContainerRepr : Type :=
  container_repr : json -> string.

Definition newline : string := String (ascii_of_nat 10) EmptyString.

(** [str(v)] *)
Definition str `{ContainerRepr} (v : json) : string :=
  match v with
  | JNull => "None"
  | JBool true => "True"
  | JBool false => "False"
  | JNum n => Wire.digits n
  | JStr s => s
  | JArr _ | JObj _ => container_repr v
  end.

(** [bool(v)], the test of [if v] *)
Definition truthy (v : json) : bool :=
  match v with
  | JNull => false
  | JBool b => b
  | JNum n => negb (Z.eqb n 0)
  | JStr s => negb (String.eqb s "")
  | JArr xs => match xs with [] => false | _ => true end
  | JObj items => match items with [] => false | _ => true end
  end.

(** [sep.join(parts)] *)
Fixpoint str_join (sep : string) (parts : list string) : string :=
  match parts with
  | [] => EmptyString
  | [x] => x
  | x :: rest => (x ++ sep ++ str_join sep rest)%string
  end.

Section Rendering.
Context `{ContainerRepr}.
#[local] Open Scope string_scope.

(** [BadEvent.__str__]: the sender fills the first field and the type
    the second. *)
Definition BadEvent__str__ (sender type : json) : string :=
  "Bad event of type " ++ str sender ++ ", from " ++ str type ++ ".".

Definition RedactedEvent__str__ (event_type redacter reason : json)
  : string :=
  let reason_text :=
    if truthy reason then ", reason: " ++ str reason else "" in
  "Redacted event of type " ++ str event_type ++ ", by " ++ str redacter
  ++ reason_text ++ ".".

Definition RoomMessageText__str__ (sender body : json) : string :=
  str sender ++ ": " ++ str body.

(** [str(event)] on an element of a timeline, by the class of the
    element; [str(None)] is ["None"]. *)
Definition entry__str__ (event : entry) : string :=
  match event with
  | None => "None"
  | Some (BadEvent _ sender _ type _) => BadEvent__str__ sender type
  | Some (RedactedEvent _ _ _ event_type redacter reason) =>
      RedactedEvent__str__ event_type redacter reason
  | Some (RoomMessageText _ sender _ body _ _) =>
      RoomMessageText__str__ sender body
  end.

Definition ErrorResponse__str__ (message : json) : string :=
  "Error: " ++ str message.

Definition LoginResponse__str__ (user_id device_id : json) : string :=
  "Logged in as " ++ str user_id ++ ", device id: " ++ str device_id ++ ".".

(** The loop of [SyncRepsponse.__str__] over [self.rooms.join.items()];
    [room_info.timeline] on a [None] raises [AttributeError]. *)
Fixpoint room_messages_loop (todo : list (string * option JoindedInfo))
    (room_messages : list string) : result (list string) :=
  match todo with
  | [] => Ok room_messages
  | (room_id, room_info) :: rest =>
      let room_header :=
        "  Messages for room " ++ room_id ++ ":" ++ newline ++ "    " in
      match room_info with
      | None => Raise AttributeError
      | Some info =>
          let messages := map entry__str__ (events (timeline info)) in
          let room_message :=
            room_header ++ str_join (newline ++ "    ") messages in
          room_messages_loop rest (room_messages ++ [room_message])%list
      end
  end.

Definition SyncRepsponse__str__ (next_batch : json) (rooms : RoomInfo)
  : result string :=
  room_messages <- room_messages_loop (join rooms) [] ;;
  let body := str_join newline room_messages in
  Ok ("Sync response until batch: " ++ str next_batch ++ ":" ++ newline
      ++ body).

(** [str(response)] *)
Definition Response__str__ (response : Response) : result string :=
  match response with
  | ErrorResponse message _ => Ok (ErrorResponse__str__ message)
  | LoginResponse user_id device_id _ =>
      Ok (LoginResponse__str__ user_id device_id)
  | SyncRepsponse next_batch rooms _ => SyncRepsponse__str__ next_batch rooms
  end.
End Rendering.

(** Lists and dicts rendered with the serialiser, to run [__str__] on
    samples. *)
Definition sample_repr : ContainerRepr := Wire.serialise.

(** A joined room of the payload and its entry in the result: the same
    room id, and the info made of the room's timeline, decoded with the
    defaults of [_get_timeline], and of an empty state. *)
Definition room_decoded `{SchemaValidator} `{Api} (Olm : Type)
    (kv : string * json) (jv : string * option JoindedInfo) : Prop :=
  fst jv = fst kv /\
  exists raw tl,
    getitem (snd kv) "timeline" = Ok raw /\
    SyncRepsponse._get_timeline (Olm := Olm) raw 0 None = Ok tl /\
    snd jv = Some (mkJoindedInfo tl []).

(** ** More sample payloads *)

Module MoreSamples.
(** a membership event: accepted by the generic schema, not a message *)
Definition member : json :=
  JObj [("event_id", JStr "$7"); ("sender", JStr "@a:x");
        ("origin_server_ts", JNum 100); ("type", JStr "m.room.member");
        ("content", JObj [("membership", JStr "join")])].

(** a redaction that gives the empty string as its reason *)
Definition redacted_empty_reason : json :=
  JObj [("event_id", JStr "$8"); ("sender", JStr "@a:x");
        ("origin_server_ts", JNum 100); ("type", JStr "m.room.message");
        ("content", JObj []);
        ("unsigned", Samples.redaction (JObj [("reason", JStr "")]))].

Definition login_answer : json :=
  JObj [("user_id", JStr "@a:x"); ("device_id", JStr "DEV1");
        ("access_token", JStr "secret")].

Definition two_rooms : json :=
  Samples.sync_payload
    [("!one:x", Samples.room [Samples.hi; Samples.notice]);
     ("!two:x", Samples.room [])].

(** the rooms [_get_room_info] makes of [two_rooms] *)
Definition two_rooms_info : RoomInfo :=
  Eval vm_compute in
    match
      @SyncRepsponse._get_room_info Wire.validator Wire.api unit
        (JObj [("join",
                JObj [("!one:x", Samples.room [Samples.hi; Samples.notice]);
                      ("!two:x", Samples.room [])])]) 0 None
    with
    | Ok rooms => rooms
    | Raise _ => mkRoomInfo [] [] []
    end.

Definition key_request : RoomKeyRequestMessage.t :=
  RoomKeyRequestMessage.mk
    (ToDeviceMessage.mk "m.room_key_request" "@b:x" "DEV1"
       (JObj [("action", JStr "request")]))
    "r1" "s1" "!room:x" "m.megolm.v1.aes-sha2".
End MoreSamples.

(** ** A second schema table *)

Module Shallow.
Definition room_event (p : json) : bool :=
  Wire.required p "event_id" Wire.is_str &&
  Wire.required p "sender" Wire.is_str &&
  Wire.required p "origin_server_ts" Wire.is_int &&
  Wire.required p "type" Wire.is_str.

Definition room_message (p : json) : bool :=
  Wire.optional p "content"
    (fun c => Wire.required c "msgtype" Wire.is_str).

Definition sync (p : json) : bool :=
  Wire.required p "next_batch" Wire.is_str &&
  Wire.required p "rooms" Wire.is_obj.

(** Modelled from the spec: a second schema table for [Schemas] of
    [nio/schemas.py], whose source is not available.  The spec leaves
    the field constraints of each schema to external configuration; this
    table types the properties as [Wire.conforms] does and requires fewer
    of them: a sync payload needs [next_batch] and a dict under [rooms]
    and nothing below it, and an event needs no [content]. *)
Definition conforms (schema : Schemas.t) : json -> bool :=
  match schema with
  | Schemas.room_event => room_event
  | Schemas.room_message => room_message
  | Schemas.sync => sync
  | other => Wire.conforms other
  end.

(** Modelled from the spec: [validate_json] of [nio/schemas.py] over the
    second table. *)
Definition validator : SchemaValidator :=
  fun instance schema =>
    if conforms schema instance then None else Some ValidationError.

(** a message event without [content] *)
Definition no_content : json :=
  JObj [("event_id", JStr "$9"); ("sender", JStr "@a:x");
        ("origin_server_ts", JNum 100); ("type", JStr "m.room.message")].

(** a sync payload with that event in the timeline of its one room *)
Definition sync_with_no_content : json :=
  Samples.sync_payload [("!r:x", Samples.room [Samples.hi; no_content])].
End Shallow.

(** The timeline of a joined room is there and [_get_timeline], called
    as [_get_room_info] calls it, makes a timeline of it. *)
Definition room_decodes `{SchemaValidator} `{Api} (Olm : Type)
    (kv : string * json) : Prop :=
  exists raw tl,
    getitem (snd kv) "timeline" = Ok raw /\
    SyncRepsponse._get_timeline (Olm := Olm) raw 0 None = Ok tl.

(** * Properties *)

(** ** Monad and primitive facts *)

Lemma lookup_getitem (items : list (string * json)) (k : string) (v : json) :
  lookup k items = Some v -> getitem (JObj items) k = Ok v.
Proof. intros E. unfold getitem. now rewrite E. Qed.

Lemma getitem_inv (d : json) (k : string) (v : json) :
  getitem d k = Ok v -> exists items, d = JObj items /\ lookup k items = Some v.
Proof.
  destruct d; simpl; try discriminate.
  destruct (lookup k items) eqn:E; intros [=]; subst. eauto.
Qed.

Lemma contains_present (d : json) (k : string) (v : json) :
  getitem d k = Ok v -> contains k d = Ok true.
Proof.
  intros G. apply getitem_inv in G as (items & -> & E). simpl. now rewrite E.
Qed.

Lemma contains_dict (items : list (string * json)) (k : string) :
  contains k (JObj items) =
  Ok (match lookup k items with Some _ => true | None => false end).
Proof. reflexivity. Qed.

Lemma validate_accepted `{SchemaValidator} (p : json) (schema : Schemas.t) :
  accepts schema p -> validate p schema = Ok tt.
Proof. unfold accepts, validate. now intros ->. Qed.

Lemma validate_rejected `{SchemaValidator} (p : json) (schema : Schemas.t) :
  ~ accepts schema p -> exists e, validate p schema = Raise (SchemaExn e).
Proof.
  unfold accepts, validate. destruct (validate_json p schema); [eauto|easy].
Qed.

Lemma bind_ok_inv {A B} (c : result A) (k : A -> result B) (b : B) :
  bind c k = Ok b -> exists a, c = Ok a /\ k a = Ok b.
Proof. destruct c; simpl; [eauto|discriminate]. Qed.

Lemma bind_no_schema_exn {A B} (c : result A) (k : A -> result B) :
  no_schema_exn c -> (forall a, no_schema_exn (k a)) ->
  no_schema_exn (bind c k).
Proof. destruct c as [a|e]; simpl; auto. Qed.

Lemma getitem_no_schema_exn (d : json) (k : string) :
  no_schema_exn (getitem d k).
Proof.
  destruct d; simpl; auto. now destruct (lookup k items).
Qed.

Lemma contains_no_schema_exn (k : string) (d : json) :
  no_schema_exn (contains k d).
Proof. now destruct d. Qed.

Lemma try_except_no_schema_exn {A} (body : result A)
    (handler : schema_exn -> result A) :
  no_schema_exn body -> try_except body handler = body.
Proof. destruct body as [a|[]]; simpl; tauto. Qed.

Ltac no_schema :=
  repeat first
    [ apply bind_no_schema_exn; [|intros ?]
    | apply getitem_no_schema_exn
    | apply contains_no_schema_exn
    | exact I
    | match goal with
      | |- no_schema_exn (if ?b then _ else _) => destruct b
      end ].

Ltac bind_inv H :=
  repeat
    (let a := fresh "a" in
     let E := fresh "E" in
     apply bind_ok_inv in H as (a & E & H)).

(** ** The concrete validator keeps the contract *)

Module WireFacts.
Import Wire.

Lemma accepts_conforms (schema : Schemas.t) (p : json) :
  @accepts validator schema p <-> conforms schema p = true.
Proof.
  unfold accepts, validate_json, validator.
  destruct (conforms schema p); split; congruence.
Qed.

Lemma required_true (d : json) (k : string) (check : json -> bool) :
  required d k check = true -> exists v, getitem d k = Ok v /\ check v = true.
Proof. unfold required. destruct (getitem d k); [eauto|discriminate]. Qed.

Lemma required_has_key (d : json) (k : string) (check : json -> bool) :
  required d k check = true -> has_key d k.
Proof. intros R. apply required_true in R as (v & G & _). now exists v. Qed.

Lemma optional_true (d : json) (k : string) (check : json -> bool) (v : json) :
  optional d k check = true -> getitem d k = Ok v -> check v = true.
Proof.
  intros O G. apply getitem_inv in G as (items & -> & L).
  simpl in O. now rewrite L in O.
Qed.

Lemma is_obj_true (v : json) : is_obj v = true -> is_dict v.
Proof. destruct v; try discriminate. intros _. now exists items. Qed.

Ltac split_and :=
  repeat match goal with
         | H : _ && _ = true |- _ => apply andb_prop in H as [? H]
         end.

Lemma wire_error_sound : @error_sound validator.
Proof.
  intros p Acc. apply accepts_conforms in Acc. simpl in Acc.
  unfold error in Acc. split_and. eauto using required_has_key.
Qed.

Lemma wire_room_event_sound : @room_event_sound validator.
Proof.
  intros p Acc. apply accepts_conforms in Acc. simpl in Acc.
  unfold room_event in Acc. split_and.
  repeat split; eauto using required_has_key.
  - destruct p; try discriminate. now exists items.
  - intros u G. eapply is_obj_true, optional_true; eassumption.
Qed.

Lemma wire_redacted_event_sound : @redacted_event_sound validator.
Proof.
  intros p Acc. apply accepts_conforms in Acc. simpl in Acc.
  unfold redacted_event in Acc.
  apply required_true in Acc as (u & Gu & Acc).
  apply required_true in Acc as (because & Gb & Acc). split_and.
  apply required_true in Acc as (content & Gc & Acc).
  exists u, because, content. repeat split; eauto using required_has_key.
  destruct content; try discriminate. now exists items.
Qed.

Lemma wire_room_message_sound : @room_message_sound validator.
Proof.
  intros p Acc. apply accepts_conforms in Acc. simpl in Acc.
  unfold room_message in Acc.
  apply required_true in Acc as (content & Gc & Acc).
  exists content. eauto using required_has_key.
Qed.

Lemma wire_room_message_text_sound : @room_message_text_sound validator.
Proof.
  intros p Acc. apply accepts_conforms in Acc. simpl in Acc.
  unfold room_message_text in Acc.
  apply required_true in Acc as (content & Gc & Acc). split_and.
  exists content. eauto using required_has_key.
Qed.

Lemma wire_room_timeline_sound : @room_timeline_sound validator.
Proof.
  intros p Acc. apply accepts_conforms in Acc. simpl in Acc.
  unfold room_timeline in Acc. split_and.
  repeat split; eauto using required_has_key.
  match goal with
  | R : required p "events" _ = true |- _ =>
      apply required_true in R as (evs & G & A)
  end.
  destruct evs; try discriminate. eauto.
Qed.

Lemma wire_sync_sound : @sync_sound validator.
Proof.
  intros p Acc. apply accepts_conforms in Acc. simpl in Acc.
  unfold sync in Acc. split_and. split; [eauto using required_has_key|].
  apply required_true in Acc as (raw_rooms & Gr & Acc).
  apply required_true in Acc as (joined & Gj & Acc).
  destruct joined; try discriminate.
  exists raw_rooms, items. repeat split; try assumption.
  apply Forall_forall. intros kv I.
  rewrite forallb_forall in Acc. eauto using required_has_key.
Qed.

Lemma wire_contract : @SchemaContract validator.
Proof.
  constructor.
  - exact wire_error_sound.
  - exact wire_room_event_sound.
  - exact wire_redacted_event_sound.
  - exact wire_room_message_sound.
  - exact wire_room_message_text_sound.
  - exact wire_room_timeline_sound.
  - exact wire_sync_sound.
Qed.
End WireFacts.

(** ** Runs of the decoders *)

Example sync_payload_decodes :
  @SyncRepsponse.from_dict Wire.validator Wire.api unit
    (Samples.sync_payload
       [("!r:x", Samples.room [Samples.hi; Samples.redacted])]) 0 None
  = Ok (SyncRepsponse (JStr "s1")
          (mkRoomInfo []
             [("!r:x",
               Some (mkJoindedInfo
                       (mkTimeline
                          [Some (RoomMessageText (JStr "$1") (JStr "@a:x")
                                   (JNum 100) (JStr "hi") JNull JNull);
                           Some (RedactedEvent (JStr "$3") (JStr "@a:x")
                                   (JNum 100) (JStr "m.room.message")
                                   (JStr "@mod:x") (JStr "spam"))]
                          (JBool false) (JStr "p0"))
                       []))]
             [])
          false).
Proof. reflexivity. Qed.

Example no_msgtype_is_a_bad_event :
  @SyncRepsponse._get_room_events Wire.validator Wire.api unit
    (JArr [Samples.no_msgtype]) 0 None
  = Ok [Some (BadEvent (JStr "$5") (JStr "@a:x") (JNum 100)
                (JStr "m.room.message")
                (Wire.serialise Samples.no_msgtype))].
Proof. reflexivity. Qed.

(** The contract is what keeps [KeyError] away: with a validator that
    accepts everything the empty payload makes [from_dict] raise. *)
Remark lax_validator_lets_key_error_out :
  ~ @SchemaContract Wire.lax /\
  @SyncRepsponse.from_dict Wire.lax Wire.api unit (JObj []) 0 None
  = Raise (KeyError "rooms").
Proof.
  split; [|reflexivity].
  intros C. destruct (@contract_error Wire.lax C JNull eq_refl) as [[v G] _].
  discriminate G.
Qed.

(** ** The loop of [_get_room_events] *)

Section RoomEvents.
Context `{SchemaValidator} `{Api} {Olm : Type}.
Implicit Types (olm : option Olm) (events : list entry).

Lemma room_event_body_rejected olm (event_dict : json) events :
  ~ accepts Schemas.room_event event_dict ->
  SyncRepsponse.room_event_body olm event_dict events = Ok events.
Proof.
  intros N. apply validate_rejected in N as [e E].
  unfold SyncRepsponse.room_event_body. now rewrite E.
Qed.

Lemma room_events_loop_app olm (xs ys : list json) events :
  SyncRepsponse.room_events_loop olm (xs ++ ys) events =
  (events' <- SyncRepsponse.room_events_loop olm xs events ;;
   SyncRepsponse.room_events_loop olm ys events').
Proof.
  revert events. induction xs as [|x xs IH]; intros events; simpl.
  - reflexivity.
  - destruct (SyncRepsponse.room_event_body olm x events); simpl; auto.
Qed.

Lemma room_events_loop_decoded olm (xs : list json) (evs : list Event) events :
  Forall2 (decodes_to olm) xs evs ->
  SyncRepsponse.room_events_loop olm xs events = Ok (events ++ map Some evs).
Proof.
  intros F. revert events.
  induction F as [|x ev xs evs D _ IH]; intros events; simpl.
  - now rewrite app_nil_r.
  - rewrite D. simpl. rewrite IH, <- app_assoc. reflexivity.
Qed.

Lemma get_room_events_skips_rejected olm (before after : list json)
    (bad : json) (max_events : Z) :
  ~ accepts Schemas.room_event bad ->
  SyncRepsponse._get_room_events (JArr (before ++ bad :: after)) max_events olm
  = SyncRepsponse._get_room_events (JArr (before ++ after)) max_events olm.
Proof.
  intros N. unfold SyncRepsponse._get_room_events. simpl.
  rewrite !room_events_loop_app.
  destruct (SyncRepsponse.room_events_loop olm before []) as [evs|e]; simpl;
    [|reflexivity].
  now rewrite room_event_body_rejected.
Qed.

(** C1 (as amended).  In a timeline that holds one event the generic
    room-event schema rejects among N events that decode to an event each,
    [_get_room_events] returns exactly the N decoded events, in the order
    of the timeline, and nothing for the rejected event: it is skipped, no
    [BadEvent] stands in for it.  The result is the one the timeline has
    without the rejected event, so no other event is lost or changed. *)
Theorem malformed_event_is_skipped_others_kept olm
    (before after : list json) (bad : json)
    (decoded_before decoded_after : list Event) (max_events : Z) :
  ~ accepts Schemas.room_event bad ->
  Forall2 (decodes_to olm) before decoded_before ->
  Forall2 (decodes_to olm) after decoded_after ->
  SyncRepsponse._get_room_events (JArr (before ++ bad :: after)) max_events olm
  = Ok (map Some (decoded_before ++ decoded_after))
  /\
  SyncRepsponse._get_room_events (JArr (before ++ bad :: after)) max_events olm
  = SyncRepsponse._get_room_events (JArr (before ++ after)) max_events olm.
Proof.
  intros N Fb Fa. split; [|now apply get_room_events_skips_rejected].
  rewrite get_room_events_skips_rejected by assumption.
  unfold SyncRepsponse._get_room_events. simpl.
  apply (room_events_loop_decoded olm _ _ []).
  now apply Forall2_app.
Qed.

End RoomEvents.

(** The timeline [hi; no_sender; bye]: two events come back, and no
    [BadEvent] for the one without a sender. *)
Lemma malformed_event_is_skipped_others_kept_witness :
  @SyncRepsponse._get_room_events Wire.validator Wire.api unit
    (JArr ([Samples.hi] ++ Samples.no_sender :: [Samples.bye])) 0 None
  = Ok (map Some
          ([RoomMessageText (JStr "$1") (JStr "@a:x") (JNum 100)
              (JStr "hi") JNull JNull] ++
           [RoomMessageText (JStr "$4") (JStr "@a:x") (JNum 100)
              (JStr "bye") JNull JNull])).
Proof.
  refine (proj1 (@malformed_event_is_skipped_others_kept
                   Wire.validator Wire.api unit None
                   [Samples.hi] [Samples.bye] Samples.no_sender
                   _ _ 0 _ _ _)).
  - unfold accepts. vm_compute. discriminate.
  - constructor; [intros events; reflexivity|constructor].
  - constructor; [intros events; reflexivity|constructor].
Defined.

(** C1 as stated fails: the rejected event leaves nothing behind, so a
    timeline of two good events and a malformed one decodes to two
    entries, none of them a [BadEvent]. *)
Lemma malformed_event_yields_no_bad_event :
  @validate_json Wire.validator Samples.no_sender Schemas.room_event
  = Some ValidationError /\
  @SyncRepsponse._get_room_events Wire.validator Wire.api unit
    (JArr [Samples.hi; Samples.no_sender; Samples.bye]) 0 None
  = Ok [Some (RoomMessageText (JStr "$1") (JStr "@a:x") (JNum 100)
                (JStr "hi") JNull JNull);
        Some (RoomMessageText (JStr "$4") (JStr "@a:x") (JNum 100)
                (JStr "bye") JNull JNull)].
Proof. split; reflexivity. Qed.

(** ** The event decoders *)

Section Decoders.
Context `{SchemaValidator} `{Api} {Olm : Type}.
Implicit Types (olm : option Olm) (events : list entry) (p : json).

Lemma bad_event_from_dict p (e s t ty : json) :
  getitem p "event_id" = Ok e -> getitem p "sender" = Ok s ->
  getitem p "origin_server_ts" = Ok t -> getitem p "type" = Ok ty ->
  BadEvent.from_dict p = Ok (BadEvent e s t ty (to_json p)).
Proof.
  intros Ee Es Et Ety. unfold BadEvent.from_dict.
  now rewrite Ee, Es, Et, Ety.
Qed.

Lemma bad_event_from_dict_inv p (ev : Event) :
  BadEvent.from_dict p = Ok ev ->
  exists e s t ty,
    getitem p "event_id" = Ok e /\ getitem p "sender" = Ok s /\
    getitem p "origin_server_ts" = Ok t /\ getitem p "type" = Ok ty /\
    ev = BadEvent e s t ty (to_json p).
Proof.
  unfold BadEvent.from_dict. intros D. bind_inv D.
  injection D as <-. eauto 10.
Qed.

(** A [BadEvent] comes from [BadEvent.from_dict] and from nowhere else. *)
Lemma redacted_from_dict_bad p (ev : Event) :
  RedactedEvent.from_dict p = Ok ev -> is_bad_event ev = true ->
  ~ accepts Schemas.redacted_event p /\ BadEvent.from_dict p = Ok ev.
Proof.
  unfold RedactedEvent.from_dict, accepts.
  destruct (validate_json p Schemas.redacted_event);
    [intros D _; split; [discriminate|exact D]|].
  intros D. bind_inv D. injection D as <-. discriminate.
Qed.

Lemma text_from_dict_bad p (ev : Event) :
  RoomMessageText.from_dict p = Ok ev -> is_bad_event ev = true ->
  ~ accepts Schemas.room_message_text p /\ BadEvent.from_dict p = Ok ev.
Proof.
  unfold RoomMessageText.from_dict, accepts.
  destruct (validate_json p Schemas.room_message_text);
    [intros D _; split; [discriminate|exact D]|].
  intros D. bind_inv D. injection D as <-. discriminate.
Qed.

Lemma room_message_from_dict_bad p olm (ev : Event) :
  RoomMessage.from_dict p olm = Ok (Some ev) -> is_bad_event ev = true ->
  (~ accepts Schemas.room_message p \/
   ~ accepts Schemas.room_message_text p) /\
  BadEvent.from_dict p = Ok ev.
Proof.
  unfold RoomMessage.from_dict, accepts at 1.
  destruct (validate_json p Schemas.room_message).
  - intros D _. apply bind_ok_inv in D as (bad & F & D). injection D as ->.
    split; [left; discriminate|exact F].
  - intros D B.
    apply bind_ok_inv in D as (content & _ & D).
    apply bind_ok_inv in D as (msgtype & _ & D).
    destruct (eq_str msgtype "m.text"); [|discriminate].
    apply bind_ok_inv in D as (text & T & D). injection D as ->.
    destruct (text_from_dict_bad p ev T B) as [N F]. auto.
Qed.

Lemma app_one_neq {A} (l : list A) (x : A) : l <> l ++ [x].
Proof.
  intros E. apply (f_equal (@length A)) in E.
  rewrite length_app in E. simpl in E. lia.
Qed.

(** Past their own [try], the event decoders raise no schema exception:
    the handler of the loop body only ever sees the one of its own
    [validate_json]. *)
Lemma bad_event_no_schema_exn p : no_schema_exn (BadEvent.from_dict p).
Proof. unfold BadEvent.from_dict. no_schema. Qed.

Lemma redacted_no_schema_exn p : no_schema_exn (RedactedEvent.from_dict p).
Proof.
  unfold RedactedEvent.from_dict.
  destruct (validate_json p Schemas.redacted_event);
    [apply bad_event_no_schema_exn|].
  no_schema.
Qed.

Lemma text_no_schema_exn p : no_schema_exn (RoomMessageText.from_dict p).
Proof.
  unfold RoomMessageText.from_dict.
  destruct (validate_json p Schemas.room_message_text);
    [apply bad_event_no_schema_exn|].
  no_schema.
Qed.

Lemma room_message_no_schema_exn p olm :
  no_schema_exn (RoomMessage.from_dict p olm).
Proof.
  unfold RoomMessage.from_dict.
  destruct (validate_json p Schemas.room_message).
  - no_schema; apply bad_event_no_schema_exn.
  - no_schema; apply text_no_schema_exn.
Qed.

Lemma dispatch_no_schema_exn olm p events :
  no_schema_exn (SyncRepsponse.dispatch olm p events).
Proof.
  unfold SyncRepsponse.dispatch.
  no_schema; (apply redacted_no_schema_exn || apply room_message_no_schema_exn).
Qed.

Lemma room_event_body_accepted olm p events :
  accepts Schemas.room_event p ->
  SyncRepsponse.room_event_body olm p events = SyncRepsponse.dispatch olm p events.
Proof.
  intros Acc. unfold SyncRepsponse.room_event_body.
  rewrite (validate_accepted _ _ Acc). cbn [bind].
  apply try_except_no_schema_exn, dispatch_no_schema_exn.
Qed.

(** A [BadEvent] in the events is the work of one of the three decoders
    below the loop, after its own schema has rejected the payload. *)
Lemma room_event_body_bad olm p events (ev : Event) :
  SyncRepsponse.room_event_body olm p events = Ok (events ++ [Some ev]) ->
  is_bad_event ev = true ->
  accepts Schemas.room_event p /\
  (~ accepts Schemas.redacted_event p \/
   ~ accepts Schemas.room_message p \/
   ~ accepts Schemas.room_message_text p) /\
  BadEvent.from_dict p = Ok ev.
Proof.
  destruct (validate_json p Schemas.room_event) as [e|] eqn:V.
  - rewrite room_event_body_rejected by (unfold accepts; congruence).
    intros [=E]. now apply app_one_neq in E.
  - rewrite room_event_body_accepted by exact V. unfold SyncRepsponse.dispatch.
    intros D B. split; [exact V|].
    apply bind_ok_inv in D as (has_unsigned & _ & D).
    apply bind_ok_inv in D as ([|] & _ & D).
    + apply bind_ok_inv in D as (red & E & D).
      injection D as D. apply app_inv_head in D. injection D as ->.
      destruct (redacted_from_dict_bad p ev E B) as [N F]. auto.
    + apply bind_ok_inv in D as (event_type & _ & D).
      destruct (eq_str event_type "m.room.message").
      * apply bind_ok_inv in D as (en & E & D).
        injection D as D. apply app_inv_head in D. injection D as ->.
        destruct (room_message_from_dict_bad p olm ev E B) as [N F].
        split; [tauto|exact F].
      * injection D as D. now apply app_one_neq in D.
Qed.

Lemma dispatch_redacted olm p (u because : json) events :
  getitem p "unsigned" = Ok u ->
  getitem u "redacted_because" = Ok because ->
  SyncRepsponse.dispatch olm p events =
  (ev <- RedactedEvent.from_dict p ;; Ok (events ++ [Some ev])).
Proof.
  intros Gu Gb. unfold SyncRepsponse.dispatch.
  rewrite (contains_present _ _ _ Gu). simpl.
  rewrite Gu. simpl. now rewrite (contains_present _ _ _ Gb).
Qed.

Lemma dispatch_message olm p (event_type : json) events :
  no_redaction_marker p ->
  getitem p "type" = Ok event_type ->
  eq_str event_type "m.room.message" = true ->
  SyncRepsponse.dispatch olm p events =
  (ev <- RoomMessage.from_dict p olm ;; Ok (events ++ [ev])).
Proof.
  intros NR Gt Et. unfold SyncRepsponse.dispatch.
  destruct (getitem_inv _ _ _ Gt) as (items & -> & L).
  rewrite contains_dict.
  destruct (lookup "unsigned" items) as [u|] eqn:Lu; simpl.
  - rewrite Lu. cbn [bind]. rewrite (NR u) by (now apply lookup_getitem).
    cbn [bind]. rewrite L. cbn [bind]. now rewrite Et.
  - rewrite L. cbn [bind]. now rewrite Et.
Qed.

(** C3 (as amended).  For an event of type ["m.room.message"] that the
    room-event and room-message schemas accept, that carries no
    [unsigned.redacted_because], and whose [content.msgtype] is not
    ["m.text"], [RoomMessage.from_dict] returns [None], no event; the loop
    of [_get_room_events] appends that [None] to the events, so the
    decoded list keeps one entry for the event and is not shorter than the
    input. *)
Theorem non_text_message_decodes_to_none olm p
    (event_type content msgtype : json) events :
  accepts Schemas.room_event p ->
  accepts Schemas.room_message p ->
  no_redaction_marker p ->
  getitem p "type" = Ok event_type ->
  eq_str event_type "m.room.message" = true ->
  getitem p "content" = Ok content ->
  getitem content "msgtype" = Ok msgtype ->
  eq_str msgtype "m.text" = false ->
  RoomMessage.from_dict p olm = Ok None /\
  SyncRepsponse.room_event_body olm p events = Ok (events ++ [None]).
Proof.
  intros Ae Am NR Gt Et Gc Gm Em.
  assert (R : RoomMessage.from_dict p olm = Ok None).
  { unfold RoomMessage.from_dict. rewrite Am, Gc. simpl.
    rewrite Gm. simpl. now rewrite Em. }
  split; [exact R|].
  rewrite room_event_body_accepted by assumption.
  rewrite (dispatch_message olm p event_type) by assumption.
  now rewrite R.
Qed.

(** C4.  A payload the text-message schema accepts, with [event_id],
    [sender], [origin_server_ts] and a [content] that has a [body],
    decodes to a [RoomMessageText] with that body; [formatted_body] and
    [format] are the content's when it has them and [None] when it has
    not. *)
Theorem text_message_decodes p (e s t body : json)
    (content : list (string * json)) :
  accepts Schemas.room_message_text p ->
  getitem p "event_id" = Ok e ->
  getitem p "sender" = Ok s ->
  getitem p "origin_server_ts" = Ok t ->
  getitem p "content" = Ok (JObj content) ->
  lookup "body" content = Some body ->
  RoomMessageText.from_dict p
  = Ok (RoomMessageText e s t body
          (or_none (lookup "formatted_body" content))
          (or_none (lookup "format" content))) /\
  (lookup "formatted_body" content = None ->
   lookup "format" content = None ->
   RoomMessageText.from_dict p = Ok (RoomMessageText e s t body JNull JNull)).
Proof.
  intros Acc Ge Gs Gt Gc Lb.
  assert (D : RoomMessageText.from_dict p
              = Ok (RoomMessageText e s t body
                      (or_none (lookup "formatted_body" content))
                      (or_none (lookup "format" content)))).
  { unfold RoomMessageText.from_dict. rewrite Acc, Gc. simpl.
    rewrite Lb.
    destruct (lookup "formatted_body" content);
      destruct (lookup "format" content); simpl;
      now rewrite ?Gc, Ge, Gs, Gt. }
  split; [exact D|]. intros Nf Nm. now rewrite D, Nf, Nm.
Qed.

(** C5 (as amended).  An event the generic room-event schema rejects (one
    without [sender], say) is skipped: the loop body leaves the events as
    they are and no [BadEvent] is made of it.  Every [BadEvent] the loop
    body does append is for a payload that the generic schema accepted
    and that the redacted-event, the room-message or the text-message
    schema rejected; its [source] is [Api.to_json] of the payload and its
    [type] the payload's [type]. *)
Theorem rejected_event_is_skipped_bad_event_keeps_source olm p events :
  (~ accepts Schemas.room_event p ->
   SyncRepsponse.room_event_body olm p events = Ok events) /\
  (forall e s t ty source,
     SyncRepsponse.room_event_body olm p events
     = Ok (events ++ [Some (BadEvent e s t ty source)]) ->
     accepts Schemas.room_event p /\
     (~ accepts Schemas.redacted_event p \/
      ~ accepts Schemas.room_message p \/
      ~ accepts Schemas.room_message_text p) /\
     source = to_json p /\
     getitem p "type" = Ok ty).
Proof.
  split; [apply room_event_body_rejected|].
  intros e s t ty source D.
  apply room_event_body_bad in D as (Acc & Cause & B); [|reflexivity].
  split; [exact Acc|]. split; [exact Cause|].
  apply bad_event_from_dict_inv in B as (e' & s' & t' & ty' & _ & _ & _ & G & E).
  injection E as -> -> -> -> ->. now split.
Qed.

(** C9.  Let the schemas keep their word on the fields the decoders read.
    For a payload the generic room-event schema accepts and that has an
    [unsigned.redacted_because], the loop body appends what
    [RedactedEvent.from_dict] returns, whatever the payload's [type]: when
    the redacted-event schema accepts, a [RedactedEvent] whose redacter is
    [unsigned.redacted_because.sender] and whose reason is
    [unsigned.redacted_because.content.reason], or [None] without one;
    when it rejects, a [BadEvent]. *)
Theorem redaction_is_decoded_before_type_dispatch olm p
    (u because : json) events :
  room_event_sound -> redacted_event_sound ->
  accepts Schemas.room_event p ->
  getitem p "unsigned" = Ok u ->
  getitem u "redacted_because" = Ok because ->
  exists e s t ty ev,
    getitem p "event_id" = Ok e /\ getitem p "sender" = Ok s /\
    getitem p "origin_server_ts" = Ok t /\ getitem p "type" = Ok ty /\
    RedactedEvent.from_dict p = Ok ev /\
    SyncRepsponse.room_event_body olm p events = Ok (events ++ [Some ev]) /\
    match validate_json p Schemas.redacted_event with
    | None =>
        exists redacter content,
          getitem because "sender" = Ok redacter /\
          getitem because "content" = Ok content /\
          ev = RedactedEvent e s t ty redacter (field_or_none content "reason")
    | Some _ => ev = BadEvent e s t ty (to_json p)
    end.
Proof.
  intros Sre Sred Acc Gu Gb.
  destruct (Sre p Acc) as (_ & [e Ge] & [s Gs] & [t Gt] & [ty Gty] & _).
  assert (B : forall ev, RedactedEvent.from_dict p = Ok ev ->
                SyncRepsponse.room_event_body olm p events
                = Ok (events ++ [Some ev])).
  { intros ev D. rewrite room_event_body_accepted by assumption.
    rewrite (dispatch_redacted olm p u because) by assumption.
    now rewrite D. }
  exists e, s, t, ty.
  destruct (validate_json p Schemas.redacted_event) as [x|] eqn:V.
  - assert (D : RedactedEvent.from_dict p = Ok (BadEvent e s t ty (to_json p))).
    { unfold RedactedEvent.from_dict. rewrite V.
      now apply bad_event_from_dict. }
    eauto 10.
  - destruct (Sred p V) as (u' & because' & content & Gu' & Gb' & [r Gr] & Gc
                            & [items ->]).
    assert (u' = u) by congruence. subst u'.
    assert (because' = because) by congruence. subst because'.
    assert (D : RedactedEvent.from_dict p
                = Ok (RedactedEvent e s t ty r
                        (field_or_none (JObj items) "reason"))).
    { unfold RedactedEvent.from_dict. rewrite V, Gu. cbn [bind].
      rewrite Gb. cbn [bind]. rewrite Gr, Gc. cbn [bind].
      fold (bind (contains "reason" (JObj items))
              (fun has : bool =>
                 if has then getitem (JObj items) "reason" else Ok JNull)).
      rewrite contains_dict. cbn [bind field_or_none].
      destruct (lookup "reason" items) as [v|] eqn:L; cbn [getitem bind or_none];
        rewrite ?L; cbn [bind]; now rewrite Ge, Gs, Gt, Gty. }
    exists (RedactedEvent e s t ty r (field_or_none (JObj items) "reason")).
    repeat (split; [assumption|]). split; [now apply B|]. eauto.
Qed.

End Decoders.

(** The notice, accepted by both schemas, leaves [None] in the list. *)
Lemma non_text_message_decodes_to_none_witness :
  @RoomMessage.from_dict Wire.validator Wire.api unit Samples.notice None
  = Ok None /\
  @SyncRepsponse.room_event_body Wire.validator Wire.api unit None
    Samples.notice [] = Ok ([] ++ [None]).
Proof.
  apply (@non_text_message_decodes_to_none Wire.validator Wire.api unit None
           Samples.notice (JStr "m.room.message")
           (JObj [("msgtype", JStr "m.notice"); ("body", JStr "hi")])
           (JStr "m.notice") []); try reflexivity.
  intros u G. discriminate G.
Defined.

(** C3 as stated fails: the timeline [hi; notice] decodes to two entries,
    as many as the input has, the second of them [None]. *)
Lemma non_text_message_leaves_an_entry :
  @validate_json Wire.validator Samples.notice Schemas.room_event = None /\
  @validate_json Wire.validator Samples.notice Schemas.room_message = None /\
  @SyncRepsponse._get_room_events Wire.validator Wire.api unit
    (JArr [Samples.hi; Samples.notice]) 0 None
  = Ok [Some (RoomMessageText (JStr "$1") (JStr "@a:x") (JNum 100)
                (JStr "hi") JNull JNull);
        None].
Proof. repeat split. Qed.

(** The text message of the spec. *)
Lemma text_message_decodes_witness :
  @RoomMessageText.from_dict Wire.validator Wire.api Samples.hi
  = Ok (RoomMessageText (JStr "$1") (JStr "@a:x") (JNum 100) (JStr "hi")
          JNull JNull).
Proof.
  refine (proj2 (@text_message_decodes Wire.validator Wire.api Samples.hi
                   (JStr "$1") (JStr "@a:x") (JNum 100) (JStr "hi")
                   [("msgtype", JStr "m.text"); ("body", JStr "hi")]
                   _ _ _ _ _ _) _ _); reflexivity.
Defined.

(** [no_sender] is rejected and skipped; [no_msgtype] passes the generic
    schema, fails the room-message schema and becomes a [BadEvent]. *)
Lemma rejected_event_is_skipped_bad_event_keeps_source_witness :
  @SyncRepsponse.room_event_body Wire.validator Wire.api unit None
    Samples.no_sender [] = Ok [] /\
  @accepts Wire.validator Schemas.room_event Samples.no_msgtype /\
  (~ @accepts Wire.validator Schemas.redacted_event Samples.no_msgtype \/
   ~ @accepts Wire.validator Schemas.room_message Samples.no_msgtype \/
   ~ @accepts Wire.validator Schemas.room_message_text Samples.no_msgtype) /\
  getitem Samples.no_msgtype "type" = Ok (JStr "m.room.message").
Proof.
  assert (N : ~ @accepts Wire.validator Schemas.room_event Samples.no_sender)
    by (unfold accepts; vm_compute; discriminate).
  split.
  - exact (proj1 (@rejected_event_is_skipped_bad_event_keeps_source
                    Wire.validator Wire.api unit None Samples.no_sender [])
             N).
  - destruct (proj2 (@rejected_event_is_skipped_bad_event_keeps_source
                       Wire.validator Wire.api unit None
                       Samples.no_msgtype [])
                (JStr "$5") (JStr "@a:x") (JNum 100)
                (JStr "m.room.message")
                (Wire.serialise Samples.no_msgtype) eq_refl)
      as (Accepted & Cause & _ & Type_).
    repeat split; assumption.
Defined.

(** C5 as stated fails: the payload without [sender] is rejected by the
    generic schema and leaves nothing in the decoded list; nor could
    [BadEvent.from_dict] make a [BadEvent] of it. *)
Lemma event_without_sender_yields_no_bad_event :
  getitem Samples.no_sender "sender" = Raise (KeyError "sender") /\
  @validate_json Wire.validator Samples.no_sender Schemas.room_event
  = Some ValidationError /\
  @SyncRepsponse._get_room_events Wire.validator Wire.api unit
    (JArr [Samples.no_sender]) 0 None = Ok [] /\
  @BadEvent.from_dict Wire.api Samples.no_sender = Raise (KeyError "sender").
Proof. repeat split. Qed.

(** A redacted message with a reason, and one whose marker is malformed:
    both are of type ["m.room.message"], neither goes to
    [RoomMessage.from_dict]. *)
Lemma redaction_is_decoded_before_type_dispatch_witness :
  @SyncRepsponse.room_event_body Wire.validator Wire.api unit None
    Samples.redacted []
  = Ok [Some (RedactedEvent (JStr "$3") (JStr "@a:x") (JNum 100)
                (JStr "m.room.message") (JStr "@mod:x") (JStr "spam"))] /\
  @SyncRepsponse.room_event_body Wire.validator Wire.api unit None
    Samples.badly_redacted []
  = Ok [Some (BadEvent (JStr "$6") (JStr "@a:x") (JNum 100)
                (JStr "m.room.message")
                (Wire.serialise Samples.badly_redacted))].
Proof.
  split.
  - destruct (@redaction_is_decoded_before_type_dispatch
                Wire.validator Wire.api unit None Samples.redacted
                (Samples.redaction (JObj [("reason", JStr "spam")]))
                (JObj [("sender", JStr "@mod:x");
                       ("content", JObj [("reason", JStr "spam")])])
                []
                WireFacts.wire_room_event_sound
                WireFacts.wire_redacted_event_sound
                eq_refl eq_refl eq_refl)
      as (e & s & t & ty & ev & Ge & Gs & Gt & Gty & D & B & _).
    rewrite B. vm_compute in D. now injection D as <-.
  - destruct (@redaction_is_decoded_before_type_dispatch
                Wire.validator Wire.api unit None Samples.badly_redacted
                (JObj [("redacted_because", JObj [])]) (JObj [])
                []
                WireFacts.wire_room_event_sound
                WireFacts.wire_redacted_event_sound
                eq_refl eq_refl eq_refl)
      as (e & s & t & ty & ev & Ge & Gs & Gt & Gty & D & B & _).
    rewrite B. vm_compute in D. now injection D as <-.
Defined.

(** ** Responses *)

Section Responses.
Context `{SchemaValidator} `{Api} {Olm : Type}.
Implicit Types (olm : option Olm) (events : list entry) (p : json).

Lemma error_from_dict_total p :
  error_sound ->
  exists message code,
    ErrorResponse.from_dict p = Ok (ErrorResponse message code).
Proof.
  intros S. unfold ErrorResponse.from_dict, ErrorResponse.init.
  destruct (validate_json p Schemas.error) as [e|] eqn:V.
  - do 2 eexists. reflexivity.
  - destruct (S p V) as ([m Gm] & [c Gc]).
    rewrite Gm, Gc. cbn [bind]. eauto.
Qed.

(** C8.  Let the error schema keep its word on [error] and [errcode].
    [ErrorResponse.from_dict] returns an [ErrorResponse] for every
    payload: with the payload's [error] and [errcode] as message and code
    when the error schema accepts it, and the placeholder with message
    ["Unknown error"] and empty code when it does not. *)
Theorem error_response_is_always_produced p :
  error_sound ->
  (exists message code,
     ErrorResponse.from_dict p = Ok (ErrorResponse message code)) /\
  match validate_json p Schemas.error with
  | None =>
      exists message code,
        getitem p "error" = Ok message /\
        getitem p "errcode" = Ok code /\
        ErrorResponse.from_dict p = Ok (ErrorResponse message code)
  | Some _ =>
      ErrorResponse.from_dict p
      = Ok (ErrorResponse (JStr "Unknown error") (JStr ""))
  end.
Proof.
  intros S. split; [now apply error_from_dict_total|].
  unfold ErrorResponse.from_dict, ErrorResponse.init.
  destruct (validate_json p Schemas.error) as [e|] eqn:V; [reflexivity|].
  destruct (S p V) as ([m Gm] & [c Gc]).
  rewrite Gm, Gc. cbn [bind]. exists m, c. auto.
Qed.

(** *** Under the contract nothing but a schema exception is raised *)

Context {contract : SchemaContract}.

Lemma bad_event_total p :
  accepts Schemas.room_event p -> exists ev, BadEvent.from_dict p = Ok ev.
Proof.
  intros Acc.
  destruct (contract_room_event p Acc)
    as (_ & [e Ge] & [s Gs] & [t Gt] & [ty Gty] & _).
  eexists. eapply bad_event_from_dict; eassumption.
Qed.

Lemma redacted_total p :
  accepts Schemas.room_event p ->
  exists ev, RedactedEvent.from_dict p = Ok ev.
Proof.
  intros Acc. unfold RedactedEvent.from_dict.
  destruct (validate_json p Schemas.redacted_event) as [x|] eqn:V;
    [now apply bad_event_total|].
  destruct (contract_room_event p Acc)
    as (_ & [e Ge] & [s Gs] & [t Gt] & [ty Gty] & _).
  destruct (contract_redacted_event p V)
    as (u & because & content & Gu & Gb & [r Gr] & Gc & [items ->]).
  rewrite Gu. cbn [bind]. rewrite Gb. cbn [bind]. rewrite Gr, Gc. cbn [bind].
  rewrite contains_dict. cbn [bind].
  destruct (lookup "reason" items) as [v|] eqn:L; cbn [getitem];
    rewrite ?L; cbn [bind]; rewrite Ge, Gs, Gt, Gty; cbn [bind]; eauto.
Qed.

Lemma text_total p :
  accepts Schemas.room_event p ->
  exists ev, RoomMessageText.from_dict p = Ok ev.
Proof.
  intros Acc. unfold RoomMessageText.from_dict.
  destruct (validate_json p Schemas.room_message_text) as [x|] eqn:V;
    [now apply bad_event_total|].
  destruct (contract_room_event p Acc)
    as (_ & [e Ge] & [s Gs] & [t Gt] & _).
  destruct (contract_room_message_text p V) as (content & Gc & [body Gb]).
  destruct (getitem_inv _ _ _ Gb) as (items & -> & Lb).
  rewrite Gc. cbn [bind getitem]. rewrite Lb. cbn [bind].
  rewrite !contains_dict. cbn [bind].
  destruct (lookup "formatted_body" items);
    destruct (lookup "format" items);
    cbn [bind]; rewrite ?Gc, Ge, Gs, Gt; cbn [bind]; eauto.
Qed.

Lemma room_message_total p olm :
  accepts Schemas.room_event p ->
  exists en, RoomMessage.from_dict p olm = Ok en.
Proof.
  intros Acc. unfold RoomMessage.from_dict.
  destruct (validate_json p Schemas.room_message) as [x|] eqn:V.
  - destruct (bad_event_total p Acc) as [ev ->]. cbn [bind]. eauto.
  - destruct (contract_room_message p V) as (content & Gc & [m Gm]).
    rewrite Gc. cbn [bind]. rewrite Gm. cbn [bind].
    destruct (eq_str m "m.text"); [|eauto].
    destruct (text_total p Acc) as [ev ->]. cbn [bind]. eauto.
Qed.

Lemma room_event_body_total olm p events :
  exists events', SyncRepsponse.room_event_body olm p events = Ok events'.
Proof.
  destruct (validate_json p Schemas.room_event) as [x|] eqn:V.
  - exists events. apply room_event_body_rejected.
    unfold accepts. congruence.
  - rewrite room_event_body_accepted by exact V. unfold SyncRepsponse.dispatch.
    destruct (contract_room_event p V) as ([items ->] & _ & _ & _ & [ty Gty] & U).
    assert (M : exists events',
              (event_type <- getitem (JObj items) "type" ;;
               if eq_str event_type "m.room.message"
               then ev <- RoomMessage.from_dict (JObj items) olm ;;
                    Ok (events ++ [ev])
               else Ok events) = Ok events').
    { rewrite Gty. cbn [bind].
      destruct (eq_str ty "m.room.message"); [|eauto].
      destruct (room_message_total (JObj items) olm V) as [en ->].
      cbn [bind]. eauto. }
    rewrite contains_dict. cbn [bind].
    destruct (lookup "unsigned" items) as [u|] eqn:Lu; [|exact M].
    cbn [getitem]. rewrite Lu. cbn [bind].
    destruct (U u (lookup_getitem _ _ _ Lu)) as [uitems ->].
    rewrite contains_dict. cbn [bind].
    destruct (lookup "redacted_because" uitems); [|exact M].
    destruct (redacted_total (JObj items) V) as [ev ->]. cbn [bind]. eauto.
Qed.

Lemma room_events_loop_total olm (todo : list json) events :
  exists out, SyncRepsponse.room_events_loop olm todo events = Ok out.
Proof.
  revert events. induction todo as [|x todo IH]; intros events; simpl.
  - eauto.
  - destruct (room_event_body_total olm x events) as [events' ->]. simpl.
    apply IH.
Qed.

Lemma get_timeline_accepted (raw : json) (max_events : Z) olm :
  accepts Schemas.room_timeline raw ->
  exists tl, SyncRepsponse._get_timeline raw max_events olm = Ok tl.
Proof.
  intros Acc. unfold SyncRepsponse._get_timeline.
  rewrite (validate_accepted _ _ Acc). cbn [bind].
  destruct (contract_room_timeline raw Acc) as ([evs Ge] & [l Gl] & [pb Gp]).
  rewrite Ge. cbn [bind]. unfold SyncRepsponse._get_room_events. cbn [iter bind].
  destruct (room_events_loop_total olm evs []) as [out ->]. cbn [bind].
  rewrite Gl, Gp. cbn [bind]. eauto.
Qed.

Lemma get_timeline_rejected (raw : json) (max_events : Z) olm :
  ~ accepts Schemas.room_timeline raw ->
  exists e, SyncRepsponse._get_timeline raw max_events olm
            = Raise (SchemaExn e).
Proof.
  intros N. unfold SyncRepsponse._get_timeline.
  destruct (validate_rejected _ _ N) as [e ->]. cbn [bind]. eauto.
Qed.

(** The loop over the joined rooms ends with a value when every timeline
    is accepted, and with a schema exception when one is rejected. *)
Lemma joined_rooms_loop_spec (todo : list (string * json))
    (joined_rooms : list (string * option JoindedInfo)) :
  Forall (fun kv => has_key (snd kv) "timeline") todo ->
  match SyncRepsponse.joined_rooms_loop (Olm := Olm) todo joined_rooms with
  | Ok _ => Forall (fun kv => ~ timeline_rejected (snd kv)) todo
  | Raise (SchemaExn _) => Exists (fun kv => timeline_rejected (snd kv)) todo
  | Raise _ => False
  end.
Proof.
  intros F. revert joined_rooms.
  induction F as [|[room_id room_dict] todo [raw G] F IH]; intros joined_rooms;
    simpl.
  - constructor.
  - simpl in G. rewrite G. cbn [bind].
    destruct (validate_json raw Schemas.room_timeline) as [x|] eqn:V.
    + assert (N : ~ accepts Schemas.room_timeline raw)
        by (unfold accepts; congruence).
      destruct (get_timeline_rejected raw 0 None N) as [e ->]. cbn [bind].
      constructor. now exists raw.
    + destruct (get_timeline_accepted raw 0 None V) as [tl ->]. cbn [bind].
      specialize (IH (dict_set room_id
                        (Some (mkJoindedInfo tl [])) joined_rooms)).
      destruct (SyncRepsponse.joined_rooms_loop _ _) as [r|[e| | |]];
        try contradiction.
      * constructor; [|exact IH]. simpl. intros (raw' & G' & N').
        apply N'. congruence.
      * now constructor 2.
Qed.

Lemma get_room_info_spec (raw_rooms : json) (items : list (string * json))
    (max_events : Z) olm :
  getitem raw_rooms "join" = Ok (JObj items) ->
  Forall (fun kv => has_key (snd kv) "timeline") items ->
  match SyncRepsponse._get_room_info raw_rooms max_events olm with
  | Ok _ => Forall (fun kv => ~ timeline_rejected (snd kv)) items
  | Raise (SchemaExn _) => Exists (fun kv => timeline_rejected (snd kv)) items
  | Raise _ => False
  end.
Proof.
  intros G F. unfold SyncRepsponse._get_room_info.
  rewrite G. cbn [bind dict_items].
  pose proof (joined_rooms_loop_spec items
                (fold_left (fun d kv => dict_set (fst kv) None d) items [])
                F) as L.
  destruct (SyncRepsponse.joined_rooms_loop _ _) as [r|[e| | |]];
    cbn [bind]; exact L.
Qed.

Lemma from_dict_spec p (max_events : Z) olm :
  match validate_json p Schemas.sync with
  | Some _ =>
      SyncRepsponse.from_dict p max_events olm = ErrorResponse.from_dict p
  | None =>
      exists next_batch raw_rooms items,
        getitem p "rooms" = Ok raw_rooms /\
        getitem raw_rooms "join" = Ok (JObj items) /\
        ((Exists (fun kv => timeline_rejected (snd kv)) items /\
          SyncRepsponse.from_dict p max_events olm
          = ErrorResponse.from_dict p)
         \/
         (Forall (fun kv => ~ timeline_rejected (snd kv)) items /\
          exists rooms,
            SyncRepsponse.from_dict p max_events olm
            = Ok (SyncRepsponse next_batch rooms false)))
  end.
Proof.
  unfold SyncRepsponse.from_dict, validate.
  destruct (validate_json p Schemas.sync) as [x|] eqn:V; [reflexivity|].
  destruct (contract_sync p V) as ([nb Gn] & raw_rooms & items & Gr & Gj & F).
  exists nb, raw_rooms, items. repeat (split; [assumption|]).
  cbn [bind]. rewrite Gr. cbn [bind].
  pose proof (get_room_info_spec raw_rooms items max_events olm Gj F) as R.
  destruct (SyncRepsponse._get_room_info raw_rooms max_events olm)
    as [rooms|[e| | |]]; try contradiction.
  - right. split; [exact R|]. rewrite Gn. cbn [bind]. eauto.
  - left. now split.
Qed.

(** When every schema keeps its word on the fields the decoders read,
    [SyncRepsponse.from_dict] returns for every payload. *)
Lemma from_dict_total_under_contract p (max_events : Z) olm :
  exists r,
    SyncRepsponse.from_dict p max_events olm = Ok r /\
    ((exists next_batch rooms partial,
        r = SyncRepsponse next_batch rooms partial) \/
     (exists message code, r = ErrorResponse message code)).
Proof.
  pose proof (from_dict_spec p max_events olm) as S.
  destruct (error_from_dict_total p contract_error) as (m & c & E).
  destruct (validate_json p Schemas.sync) as [x|].
  - exists (ErrorResponse m c). split; [congruence|eauto].
  - destruct S as (nb & raw_rooms & items & _ & _ & [[_ S]|[_ [rooms S]]]).
    + exists (ErrorResponse m c). split; [congruence|eauto].
    + exists (SyncRepsponse nb rooms false). split; [exact S|eauto 10].
Qed.

End Responses.

(** C10.  [max_events] is passed along and never read: two calls of
    [SyncRepsponse.from_dict] that differ in it alone return the same, and
    so do the three helpers that take it. *)
Theorem max_events_has_no_effect `{SchemaValidator} `{Api} {Olm : Type}
    (p : json) (m1 m2 : Z) (olm : option Olm) :
  SyncRepsponse.from_dict p m1 olm = SyncRepsponse.from_dict p m2 olm /\
  SyncRepsponse._get_room_info p m1 olm
  = SyncRepsponse._get_room_info p m2 olm /\
  SyncRepsponse._get_timeline p m1 olm = SyncRepsponse._get_timeline p m2 olm /\
  SyncRepsponse._get_room_events p m1 olm
  = SyncRepsponse._get_room_events p m2 olm.
Proof.
  (* no definition mentions its [max_events] past handing it on *)
  unfold SyncRepsponse.from_dict, SyncRepsponse._get_room_info,
    SyncRepsponse._get_timeline, SyncRepsponse._get_room_events.
  auto.
Qed.

(** An error payload of the server, and a payload that is no error. *)
Lemma error_response_is_always_produced_witness :
  @ErrorResponse.from_dict Wire.validator Samples.server_error
  = Ok (ErrorResponse (JStr "Forbidden") (JStr "M_FORBIDDEN")) /\
  @ErrorResponse.from_dict Wire.validator Samples.hi
  = Ok (ErrorResponse (JStr "Unknown error") (JStr "")).
Proof.
  split.
  - destruct (proj2 (@error_response_is_always_produced Wire.validator
                       Samples.server_error WireFacts.wire_error_sound))
      as (m & c & Gm & Gc & D).
    rewrite D. vm_compute in Gm, Gc. congruence.
  - exact (proj2 (@error_response_is_always_produced Wire.validator
                    Samples.hi WireFacts.wire_error_sound)).
Defined.

(** ** To-device messages *)

(** C7.  [as_dict] of a [ToDeviceMessage], of a [DummyMessage] and of a
    [RoomKeyRequestMessage] is the mapping with the single key
    ["messages"], under it the single recipient, under that the single
    device, under that the content.  The request id, session id, room id
    and algorithm of a [RoomKeyRequestMessage] are not part of it. *)
Theorem to_device_envelope_shape
    (type recipient recipient_device : string) (content : json)
    (request_id session_id room_id algorithm : string) :
  let message :=
    ToDeviceMessage.mk type recipient recipient_device content in
  let rendered :=
    JObj [("messages",
           JObj [(recipient, JObj [(recipient_device, content)])])] in
  as_dict message = rendered /\
  as_dict (DummyMessage.mk message) = rendered /\
  as_dict (RoomKeyRequestMessage.mk message request_id session_id room_id
             algorithm) = rendered.
Proof. repeat split. Qed.


(** * Further properties of the code *)

(** ** The loop of [_get_room_events], for any validator *)

Section LoopFacts.
Context `{SchemaValidator} `{Api} {Olm : Type}.
Implicit Types (olm : option Olm) (events : list entry) (p : json).

Lemma dispatch_appends olm p events :
  SyncRepsponse.dispatch olm p events =
  (appended <- SyncRepsponse.dispatch olm p [] ;; Ok (events ++ appended)).
Proof.
  unfold SyncRepsponse.dispatch.
  destruct (contains "unsigned" p) as [has|e]; cbn [bind]; [|reflexivity].
  destruct (if has then _ else _) as [[|]|e]; cbn [bind]; [| |reflexivity].
  - destruct (RedactedEvent.from_dict p); reflexivity.
  - destruct (getitem p "type") as [ty|e]; cbn [bind]; [|reflexivity].
    destruct (eq_str ty "m.room.message").
    + destruct (RoomMessage.from_dict p olm); reflexivity.
    + cbn [bind]. now rewrite app_nil_r.
Qed.

Lemma dispatch_at_most_one olm p (appended : list entry) :
  SyncRepsponse.dispatch olm p [] = Ok appended -> length appended <= 1.
Proof.
  unfold SyncRepsponse.dispatch. intros D.
  apply bind_ok_inv in D as (has & _ & D).
  apply bind_ok_inv in D as ([|] & _ & D).
  - apply bind_ok_inv in D as (ev & _ & D). injection D as <-. simpl. lia.
  - apply bind_ok_inv in D as (ty & _ & D).
    destruct (eq_str ty "m.room.message").
    + apply bind_ok_inv in D as (ev & _ & D). injection D as <-. simpl. lia.
    + injection D as <-. simpl. lia.
Qed.

Lemma room_event_body_appends olm p events :
  SyncRepsponse.room_event_body olm p events =
  (appended <- SyncRepsponse.room_event_body olm p [] ;;
   Ok (events ++ appended)).
Proof.
  destruct (validate_json p Schemas.room_event) as [x|] eqn:V.
  - rewrite !room_event_body_rejected by (unfold accepts; congruence).
    cbn [bind]. now rewrite app_nil_r.
  - rewrite !room_event_body_accepted by exact V. apply dispatch_appends.
Qed.

Lemma room_event_body_at_most_one olm p (appended : list entry) :
  SyncRepsponse.room_event_body olm p [] = Ok appended ->
  length appended <= 1.
Proof.
  destruct (validate_json p Schemas.room_event) as [x|] eqn:V.
  - rewrite room_event_body_rejected by (unfold accepts; congruence).
    intros [= <-]. simpl. lia.
  - rewrite room_event_body_accepted by exact V. apply dispatch_at_most_one.
Qed.

Lemma room_events_loop_appends olm (todo : list json) events :
  SyncRepsponse.room_events_loop olm todo events =
  (appended <- SyncRepsponse.room_events_loop olm todo [] ;;
   Ok (events ++ appended)).
Proof.
  revert events. induction todo as [|x todo IH]; intros events; simpl.
  - now rewrite app_nil_r.
  - rewrite (room_event_body_appends olm x events).
    destruct (SyncRepsponse.room_event_body olm x []) as [l|e]; cbn [bind];
      [|reflexivity].
    rewrite (IH (events ++ l)), (IH l).
    destruct (SyncRepsponse.room_events_loop olm todo []) as [l'|e];
      cbn [bind]; [|reflexivity].
    now rewrite app_assoc.
Qed.

(** X1.  Decoding a timeline is decoding its parts: the events of
    [xs ++ ys] are the events of [xs] followed by those of [ys], and an
    exception of the first part, else of the second, is the exception of
    the whole. *)
Theorem get_room_events_of_concatenation olm (xs ys : list json)
    (max_events : Z) :
  SyncRepsponse._get_room_events (JArr (xs ++ ys)) max_events olm =
  (decoded_xs <- SyncRepsponse._get_room_events (JArr xs) max_events olm ;;
   decoded_ys <- SyncRepsponse._get_room_events (JArr ys) max_events olm ;;
   Ok (decoded_xs ++ decoded_ys)).
Proof.
  unfold SyncRepsponse._get_room_events. cbn [iter bind].
  rewrite room_events_loop_app.
  destruct (SyncRepsponse.room_events_loop olm xs []) as [a|e]; cbn [bind];
    [|reflexivity].
  apply room_events_loop_appends.
Qed.

Lemma room_events_loop_length olm (todo : list json) (out : list entry) :
  SyncRepsponse.room_events_loop olm todo [] = Ok out ->
  length out <= length todo.
Proof.
  revert out. induction todo as [|x todo IH]; intros out; simpl.
  - intros [= <-]. simpl. lia.
  - intros L. apply bind_ok_inv in L as (l & B & L).
    rewrite room_events_loop_appends in L.
    apply bind_ok_inv in L as (l' & L' & L). injection L as <-.
    apply room_event_body_at_most_one in B. apply IH in L'.
    rewrite length_app. lia.
Qed.

(** X2.  [_get_room_events] returns at most one entry per event of the
    array it is given. *)
Theorem get_room_events_length_bound olm (raw_events : list json)
    (max_events : Z) (out : list entry) :
  SyncRepsponse._get_room_events (JArr raw_events) max_events olm = Ok out ->
  length out <= length raw_events.
Proof.
  unfold SyncRepsponse._get_room_events. cbn [iter bind].
  apply room_events_loop_length.
Qed.

(** X3.  An event the generic schema accepts, without
    [unsigned.redacted_because] and of a type other than
    ["m.room.message"], leaves no entry: the loop body returns the events
    it was given. *)
Theorem other_event_types_leave_no_entry olm p (event_type : json) events :
  accepts Schemas.room_event p ->
  no_redaction_marker p ->
  getitem p "type" = Ok event_type ->
  eq_str event_type "m.room.message" = false ->
  SyncRepsponse.room_event_body olm p events = Ok events.
Proof.
  intros Acc NR Gt Et.
  rewrite room_event_body_accepted by exact Acc.
  unfold SyncRepsponse.dispatch.
  destruct (getitem_inv _ _ _ Gt) as (items & -> & L).
  rewrite contains_dict.
  destruct (lookup "unsigned" items) as [u|] eqn:Lu; cbn [bind].
  - cbn [getitem]. rewrite Lu. cbn [bind].
    rewrite (NR u) by (now apply lookup_getitem). cbn [bind].
    rewrite L. cbn [bind]. now rewrite Et.
  - cbn [getitem]. rewrite L. cbn [bind]. now rewrite Et.
Qed.

End LoopFacts.

Lemma get_room_events_length_bound_witness :
  length [Some (RoomMessageText (JStr "$1") (JStr "@a:x") (JNum 100)
                  (JStr "hi") JNull JNull)]
  <= length [Samples.hi; Samples.no_sender; MoreSamples.member].
Proof.
  apply (@get_room_events_length_bound Wire.validator Wire.api unit None
           [Samples.hi; Samples.no_sender; MoreSamples.member] 0).
  reflexivity.
Defined.

Lemma other_event_types_leave_no_entry_witness :
  @SyncRepsponse.room_event_body Wire.validator Wire.api unit None
    MoreSamples.member [None] = Ok [None].
Proof.
  apply (@other_event_types_leave_no_entry Wire.validator Wire.api unit None
           MoreSamples.member (JStr "m.room.member") [None]);
    try reflexivity.
  intros u G. discriminate G.
Defined.

(** ** Exceptions and results of the decoders, for any validator *)

Section DecoderFacts.
Context `{SchemaValidator} `{Api} {Olm : Type}.
Implicit Types (olm : option Olm) (events : list entry) (p : json).

Lemma room_event_body_no_schema_exn olm p events :
  no_schema_exn (SyncRepsponse.room_event_body olm p events).
Proof.
  destruct (validate_json p Schemas.room_event) as [x|] eqn:V.
  - rewrite room_event_body_rejected by (unfold accepts; congruence).
    exact I.
  - rewrite room_event_body_accepted by exact V.
    apply dispatch_no_schema_exn.
Qed.

Lemma room_events_loop_no_schema_exn olm (todo : list json) events :
  no_schema_exn (SyncRepsponse.room_events_loop olm todo events).
Proof.
  revert events. induction todo as [|x todo IH]; intros events; simpl.
  - exact I.
  - apply bind_no_schema_exn; [apply room_event_body_no_schema_exn|].
    intros events'. apply IH.
Qed.

Lemma get_room_events_no_schema_exn (raw : json) (max_events : Z) olm :
  no_schema_exn (SyncRepsponse._get_room_events raw max_events olm).
Proof.
  unfold SyncRepsponse._get_room_events.
  apply bind_no_schema_exn; [now destruct raw|].
  intros todo. apply room_events_loop_no_schema_exn.
Qed.

Lemma error_from_dict_no_schema_exn p :
  no_schema_exn (ErrorResponse.from_dict p).
Proof.
  unfold ErrorResponse.from_dict.
  destruct (validate_json p Schemas.error); [exact I|]. no_schema.
Qed.

(** X4.  The two exceptions of the schema library never leave
    [_get_room_events], [ErrorResponse.from_dict],
    [LoginResponse.from_dict] or [SyncRepsponse.from_dict], whatever the
    schemas accept: each of them catches the ones raised below it. *)
Theorem no_schema_exception_escapes (p : json) (max_events : Z) olm :
  no_schema_exn (SyncRepsponse._get_room_events p max_events olm) /\
  no_schema_exn (ErrorResponse.from_dict p) /\
  no_schema_exn (LoginResponse.from_dict p) /\
  no_schema_exn (SyncRepsponse.from_dict p max_events olm).
Proof.
  split; [apply get_room_events_no_schema_exn|].
  split; [apply error_from_dict_no_schema_exn|].
  split.
  - unfold LoginResponse.from_dict.
    destruct (validate_json p Schemas.login);
      [apply error_from_dict_no_schema_exn|]. no_schema.
  - unfold SyncRepsponse.from_dict.
    destruct (validate p Schemas.sync ;;; _) as [rooms|[e| | |]];
      try exact I.
    + no_schema.
    + apply error_from_dict_no_schema_exn.
Qed.

(** X5.  [BadEvent.from_dict] returns exactly when the payload is a dict
    with [event_id], [sender], [origin_server_ts] and [type], and then the
    event holds these four and the serialised payload.  On a dict that
    lacks one of them it raises [KeyError] for a key that is missing; on
    anything but a dict it raises [TypeError]. *)
Theorem bad_event_from_dict_outcomes p :
  match BadEvent.from_dict p with
  | Ok ev =>
      exists e s t ty,
        getitem p "event_id" = Ok e /\ getitem p "sender" = Ok s /\
        getitem p "origin_server_ts" = Ok t /\ getitem p "type" = Ok ty /\
        ev = BadEvent e s t ty (to_json p)
  | Raise (KeyError k) =>
      is_dict p /\ ~ has_key p k /\
      In k ["event_id"; "sender"; "origin_server_ts"; "type"]
  | Raise TypeError => ~ is_dict p
  | Raise _ => False
  end.
Proof.
  destruct (BadEvent.from_dict p) as [ev|e] eqn:D.
  - now apply bad_event_from_dict_inv.
  - unfold BadEvent.from_dict in D.
    destruct p as [| | | | |items];
      try (injection D as <-; intros [items' E]; discriminate E).
    assert (M : forall k, lookup k items = None ->
                  ~ has_key (JObj items) k).
    { intros k L [v G]. simpl in G. now rewrite L in G. }
    assert (Dict : is_dict (JObj items)) by now exists items.
    cbn [getitem] in D.
    destruct (lookup "event_id" items) eqn:L1; cbn [bind] in D;
      [|injection D as <-; simpl; auto 10].
    destruct (lookup "sender" items) eqn:L2; cbn [bind] in D;
      [|injection D as <-; simpl; auto 10].
    destruct (lookup "origin_server_ts" items) eqn:L3; cbn [bind] in D;
      [|injection D as <-; simpl; auto 10].
    destruct (lookup "type" items) eqn:L4; cbn [bind] in D;
      [discriminate D|injection D as <-; simpl; auto 10].
Qed.

Lemma text_from_dict_kinds p :
  match RoomMessageText.from_dict p with
  | Ok (RoomMessageText e s t body fb fmt) =>
      accepts Schemas.room_message_text p /\
      exists content,
        getitem p "content" = Ok content /\ getitem content "body" = Ok body
  | Ok (BadEvent e s t ty source) =>
      ~ accepts Schemas.room_message_text p /\ source = to_json p
  | Ok (RedactedEvent _ _ _ _ _ _) => False
  | Raise e => True
  end.
Proof.
  destruct (RoomMessageText.from_dict p) as [ev|e] eqn:D; [|exact I].
  unfold RoomMessageText.from_dict, accepts in *.
  destruct (validate_json p Schemas.room_message_text) as [x|] eqn:V.
  - apply bad_event_from_dict_inv in D
      as (e & s & t & ty & _ & _ & _ & _ & ->).
    split; [congruence|reflexivity].
  - apply bind_ok_inv in D as (content & Gc & D).
    apply bind_ok_inv in D as (body & Gb & D).
    bind_inv D. injection D as <-. eauto.
Qed.

(** X6.  What [RoomMessage.from_dict] can return.  [None] only for a
    payload the room-message schema accepts with a [msgtype] other than
    ["m.text"]; a [RoomMessageText] only when both message schemas accept
    and the [msgtype] is ["m.text"], and its body is [content.body]; a
    [BadEvent] only when one of the two schemas rejects, and its source is
    the serialised payload; never a [RedactedEvent], and never a schema
    exception. *)
Theorem room_message_from_dict_outcomes olm p :
  match RoomMessage.from_dict p olm with
  | Ok None =>
      accepts Schemas.room_message p /\
      exists content msgtype,
        getitem p "content" = Ok content /\
        getitem content "msgtype" = Ok msgtype /\
        eq_str msgtype "m.text" = false
  | Ok (Some (RoomMessageText e s t body fb fmt)) =>
      accepts Schemas.room_message p /\
      accepts Schemas.room_message_text p /\
      exists content msgtype,
        getitem p "content" = Ok content /\
        getitem content "msgtype" = Ok msgtype /\
        eq_str msgtype "m.text" = true /\
        getitem content "body" = Ok body
  | Ok (Some (BadEvent e s t ty source)) =>
      (~ accepts Schemas.room_message p \/
       ~ accepts Schemas.room_message_text p) /\
      source = to_json p
  | Ok (Some (RedactedEvent _ _ _ _ _ _)) => False
  | Raise e => forall x, e <> SchemaExn x
  end.
Proof.
  pose proof (room_message_no_schema_exn p olm) as NS.
  destruct (RoomMessage.from_dict p olm) as [en|e] eqn:D;
    [|intros x ->; exact NS].
  clear NS. unfold RoomMessage.from_dict, accepts in *.
  destruct (validate_json p Schemas.room_message) as [x|] eqn:V.
  - apply bind_ok_inv in D as (bad & B & D). injection D as <-.
    apply bad_event_from_dict_inv in B
      as (e & s & t & ty & _ & _ & _ & _ & ->).
    split; [left; congruence|reflexivity].
  - apply bind_ok_inv in D as (content & Gc & D).
    apply bind_ok_inv in D as (msgtype & Gm & D).
    destruct (eq_str msgtype "m.text") eqn:Em.
    + apply bind_ok_inv in D as (text & T & D). injection D as <-.
      pose proof (text_from_dict_kinds p) as K. rewrite T in K.
      destruct text as [e s t ty source|e s t ty r reason|e s t body fb fmt].
      * destruct K as [N ->]. split; [now right|reflexivity].
      * exact K.
      * destruct K as (At & content' & Gc' & Gb).
        assert (content' = content) by congruence. subst content'.
        split; [reflexivity|]. split; [exact At|]. eauto 10.
    + injection D as <-. eauto 10.
Qed.

(** X7.  The [olm] handle has no effect: [_get_room_events] hands it to
    [RoomMessage.from_dict], which does not read it, and
    [_get_room_info] does not even hand it on; two calls that differ in
    it alone return the same. *)
Theorem olm_has_no_effect (p : json) (max_events : Z)
    (olm1 olm2 : option Olm) :
  RoomMessage.from_dict p olm1 = RoomMessage.from_dict p olm2 /\
  SyncRepsponse._get_room_events p max_events olm1
  = SyncRepsponse._get_room_events p max_events olm2 /\
  SyncRepsponse._get_timeline p max_events olm1
  = SyncRepsponse._get_timeline p max_events olm2 /\
  SyncRepsponse.from_dict p max_events olm1
  = SyncRepsponse.from_dict p max_events olm2.
Proof.
  assert (B : forall x events,
             SyncRepsponse.room_event_body olm1 x events
             = SyncRepsponse.room_event_body olm2 x events) by reflexivity.
  assert (L : forall todo events,
             SyncRepsponse.room_events_loop olm1 todo events
             = SyncRepsponse.room_events_loop olm2 todo events).
  { induction todo as [|x todo IH]; intros events; simpl; [reflexivity|].
    rewrite B. destruct (SyncRepsponse.room_event_body olm2 x events);
      cbn [bind]; auto. }
  assert (E : forall raw,
             SyncRepsponse._get_room_events raw max_events olm1
             = SyncRepsponse._get_room_events raw max_events olm2).
  { intros raw. unfold SyncRepsponse._get_room_events.
    destruct (iter raw); cbn [bind]; auto. }
  split; [reflexivity|]. split; [apply E|]. split; [|reflexivity].
  unfold SyncRepsponse._get_timeline.
  destruct (validate p Schemas.room_timeline); cbn [bind]; [|reflexivity].
  destruct (getitem p "events"); cbn [bind]; [|reflexivity].
  now rewrite E.
Qed.

End DecoderFacts.

(** ** Dicts as item lists *)

Lemma dict_set_present {V} (k : string) (v : V) (d : list (string * V)) :
  In k (map fst d) -> map fst (dict_set k v d) = map fst d.
Proof.
  induction d as [|[k' v'] d IH]; simpl; [easy|].
  destruct (String.eqb_spec k' k) as [->|N]; [reflexivity|].
  intros [E|I]; [congruence|]. simpl. now rewrite IH.
Qed.

Lemma dict_set_absent {V} (k : string) (v : V) (d : list (string * V)) :
  ~ In k (map fst d) -> dict_set k v d = d ++ [(k, v)].
Proof.
  induction d as [|[k' v'] d IH]; simpl; [reflexivity|].
  intros N. destruct (String.eqb_spec k' k) as [->|N']; [tauto|].
  rewrite IH by tauto. reflexivity.
Qed.

Lemma dict_set_keys {V} (k : string) (v : V) (d : list (string * V)) :
  forall k', In k' (map fst (dict_set k v d)) <-> k' = k \/ In k' (map fst d).
Proof.
  intros k'. destruct (in_dec string_dec k (map fst d)) as [I|N].
  - rewrite dict_set_present by exact I. split; [tauto|].
    intros [->|I']; assumption.
  - rewrite dict_set_absent by exact N. rewrite map_app, in_app_iff. simpl.
    split; intros [A|B]; auto; destruct B; auto; try easy.
Qed.

Lemma dict_set_NoDup {V} (k : string) (v : V) (d : list (string * V)) :
  NoDup (map fst d) -> NoDup (map fst (dict_set k v d)).
Proof.
  intros ND. destruct (in_dec string_dec k (map fst d)) as [I|N].
  - now rewrite dict_set_present.
  - rewrite dict_set_absent by exact N. rewrite map_app. simpl.
    apply NoDup_app; [exact ND|repeat constructor; easy|].
    intros x Ix [<-|[]]. contradiction.
Qed.

Lemma dict_set_in {V} (k : string) (v : V) (d : list (string * V))
    (k' : string) (v' : V) :
  NoDup (map fst d) -> In (k', v') (dict_set k v d) ->
  (k' = k /\ v' = v) \/ (k' <> k /\ In (k', v') d).
Proof.
  induction d as [|[k1 v1] d IH]; simpl; intros ND I.
  - destruct I as [[= <- <-]|[]]. now left.
  - inversion ND as [|? ? N1 ND']; subst.
    destruct (String.eqb_spec k1 k) as [->|N].
    + destruct I as [[= <- <-]|I]; [now left|].
      right. split; [|now right].
      intros ->. apply N1. now apply (in_map fst) in I.
    + destruct I as [[= <- <-]|I]; [right; split; [exact N|now left]|].
      destruct (IH ND' I) as [L|[R1 R2]]; [now left|right; auto].
Qed.

(** ** Timelines and rooms, for any validator *)

Section RoomFacts.
Context `{SchemaValidator} `{Api} {Olm : Type}.
Implicit Types (olm : option Olm) (p raw : json).

Lemma get_timeline_schema_exn raw (max_events : Z) olm (x : schema_exn) :
  SyncRepsponse._get_timeline raw max_events olm = Raise (SchemaExn x) ->
  ~ accepts Schemas.room_timeline raw.
Proof.
  intros E Acc. unfold SyncRepsponse._get_timeline in E.
  rewrite (validate_accepted _ _ Acc) in E. cbn [bind] in E.
  assert (N : no_schema_exn
                (raw_events <- getitem raw "events" ;;
                 events <- SyncRepsponse._get_room_events raw_events
                             max_events olm ;;
                 limited <- getitem raw "limited" ;;
                 prev_batch <- getitem raw "prev_batch" ;;
                 Ok (mkTimeline events limited prev_batch))).
  { apply bind_no_schema_exn; [apply getitem_no_schema_exn|].
    intros raw_events.
    apply bind_no_schema_exn; [apply get_room_events_no_schema_exn|].
    intros evs. no_schema. }
  now rewrite E in N.
Qed.

(** X8.  What [_get_timeline] does.  It returns only for a payload the
    room-timeline schema accepts, with [limited] and [prev_batch] taken
    over as they are and the events [_get_room_events] makes of
    [events]; it raises a schema exception exactly for a payload the
    schema rejects. *)
Theorem get_timeline_outcomes raw (max_events : Z) olm :
  match SyncRepsponse._get_timeline raw max_events olm with
  | Ok tl =>
      accepts Schemas.room_timeline raw /\
      getitem raw "limited" = Ok (limited tl) /\
      getitem raw "prev_batch" = Ok (prev_batch tl) /\
      exists raw_events,
        getitem raw "events" = Ok raw_events /\
        SyncRepsponse._get_room_events raw_events max_events olm
        = Ok (events tl)
  | Raise (SchemaExn _) => ~ accepts Schemas.room_timeline raw
  | Raise _ => accepts Schemas.room_timeline raw
  end.
Proof.
  unfold SyncRepsponse._get_timeline, validate, accepts.
  destruct (validate_json raw Schemas.room_timeline) as [x|] eqn:V;
    cbn [bind]; [congruence|].
  pose proof (getitem_no_schema_exn raw "events") as N1.
  destruct (getitem raw "events") as [raw_events|e1]; cbn [bind];
    [|destruct e1; easy].
  pose proof (get_room_events_no_schema_exn raw_events max_events olm) as N2.
  destruct (SyncRepsponse._get_room_events raw_events max_events olm)
    as [evs|e2] eqn:E2; cbn [bind]; [|destruct e2; easy].
  pose proof (getitem_no_schema_exn raw "limited") as N3.
  destruct (getitem raw "limited") as [l|e3]; cbn [bind];
    [|destruct e3; easy].
  pose proof (getitem_no_schema_exn raw "prev_batch") as N4.
  destruct (getitem raw "prev_batch") as [pb|e4]; cbn [bind];
    [|destruct e4; easy].
  simpl. repeat split. eauto.
Qed.

Lemma joined_rooms_loop_schema_exn (todo : list (string * json))
    (joined_rooms : list (string * option JoindedInfo)) (x : schema_exn) :
  SyncRepsponse.joined_rooms_loop (Olm := Olm) todo joined_rooms
  = Raise (SchemaExn x) ->
  Exists (fun kv => timeline_rejected (snd kv)) todo.
Proof.
  revert joined_rooms.
  induction todo as [|[room_id room_dict] todo IH]; intros joined_rooms;
    simpl; [discriminate|].
  pose proof (getitem_no_schema_exn room_dict "timeline") as N.
  destruct (getitem room_dict "timeline") as [raw|e] eqn:G; cbn [bind];
    [|intros [= ->]; contradiction].
  destruct (SyncRepsponse._get_timeline raw 0 None) as [tl|e] eqn:T;
    cbn [bind].
  - intros L. constructor 2. now apply IH in L.
  - intros [= ->]. constructor. exists raw. split; [exact G|].
    now apply get_timeline_schema_exn in T.
Qed.

(** The invariant of the loop over the joined rooms: no key twice, a
    [None] only under a key that is still to come, an empty state in
    every info. *)
Lemma joined_rooms_loop_invariant (todo : list (string * json))
    (d d' : list (string * option JoindedInfo)) :
  NoDup (map fst d) ->
  (forall k, In (k, None) d -> In k (map fst todo)) ->
  (forall k info, In (k, Some info) d -> state info = []) ->
  SyncRepsponse.joined_rooms_loop (Olm := Olm) todo d = Ok d' ->
  NoDup (map fst d') /\
  (forall k, In k (map fst d') <-> In k (map fst d) \/ In k (map fst todo)) /\
  (forall k v, In (k, v) d' -> exists info, v = Some info /\ state info = []).
Proof.
  revert d. induction todo as [|[room_id room_dict] todo IH];
    intros d ND Pending Empty; simpl.
  - intros [= <-]. split; [exact ND|]. split; [tauto|].
    intros k [info|] I; [eauto|]. now apply Pending in I.
  - intros L. apply bind_ok_inv in L as (raw & _ & L).
    apply bind_ok_inv in L as (tl & _ & L).
    apply IH in L as (ND' & Keys & Filled).
    + split; [exact ND'|]. split; [|exact Filled].
      intros k. rewrite Keys, dict_set_keys. simpl. intuition congruence.
    + now apply dict_set_NoDup.
    + intros k I. apply dict_set_in in I as [[_ [=]]|[N I]]; [|exact ND].
      apply Pending in I. destruct I as [E|I]; [simpl in E; congruence|exact I].
    + intros k info I.
      apply dict_set_in in I as [[_ [= ->]]|[_ I]]; [reflexivity| |exact ND].
      now apply Empty in I.
Qed.

Lemma dict_comprehension_keys (items : list (string * json))
    (acc : list (string * option JoindedInfo)) :
  NoDup (map fst acc) ->
  let d := fold_left (fun d kv => dict_set (fst kv) None d) items acc in
  NoDup (map fst d) /\
  (forall k, In k (map fst d) <-> In k (map fst acc) \/ In k (map fst items)) /\
  (forall k v, In (k, v) d ->
     In (k, v) acc \/ (v = None /\ In k (map fst items))).
Proof.
  revert acc. induction items as [|[k0 room] items IH]; intros acc ND; simpl.
  - split; [exact ND|]. split; [tauto|auto].
  - destruct (IH (dict_set k0 None acc) (dict_set_NoDup _ _ _ ND))
      as (ND' & Keys & Ins).
    split; [exact ND'|]. split.
    + intros k. rewrite Keys, dict_set_keys. intuition congruence.
    + intros k v I. apply Ins in I as [I|[-> I]]; [|auto].
      apply dict_set_in in I as [[-> ->]|[_ I]]; auto.
Qed.

Lemma get_room_info_filled raw (max_events : Z) olm (rooms : RoomInfo) :
  SyncRepsponse._get_room_info raw max_events olm = Ok rooms ->
  Forall (fun kv => exists info, snd kv = Some info) (join rooms).
Proof.
  unfold SyncRepsponse._get_room_info. intros R.
  apply bind_ok_inv in R as (joined & G & R).
  apply bind_ok_inv in R as (items & DI & R).
  rewrite G in R. cbn [bind] in R. rewrite DI in R. cbn [bind] in R.
  apply bind_ok_inv in R as (d' & L & R). injection R as <-. simpl.
  destruct (dict_comprehension_keys items [] (NoDup_nil _))
    as (ND0 & _ & Ins0).
  apply joined_rooms_loop_invariant in L as (_ & _ & Filled).
  - apply Forall_forall. intros [k v] I.
    apply Filled in I as (info & -> & _). now exists info.
  - exact ND0.
  - intros k I. now apply Ins0 in I as [[]|[_ I]].
  - intros k info I. now apply Ins0 in I as [[]|[[=] _]].
Qed.

(** X9.  What [_get_room_info] keeps in a result: [invite] and [leave]
    are empty; the joined rooms are the keys of the payload's [join],
    each once; and every joined room holds an info, with an empty
    [state]: none of the [None] the dict starts with is left. *)
Theorem room_info_invariants raw (max_events : Z) olm (rooms : RoomInfo) :
  SyncRepsponse._get_room_info raw max_events olm = Ok rooms ->
  invite rooms = [] /\ leave rooms = [] /\
  NoDup (map fst (join rooms)) /\
  (exists items,
     getitem raw "join" = Ok (JObj items) /\
     forall k, In k (map fst (join rooms)) <-> In k (map fst items)) /\
  Forall (fun kv => exists info, snd kv = Some info /\ state info = [])
         (join rooms).
Proof.
  unfold SyncRepsponse._get_room_info. intros R.
  apply bind_ok_inv in R as (joined & G & R).
  apply bind_ok_inv in R as (items & DI & R).
  rewrite G in R. cbn [bind] in R. rewrite DI in R. cbn [bind] in R.
  apply bind_ok_inv in R as (d' & L & R). injection R as <-. simpl.
  destruct joined; try discriminate DI. injection DI as ->.
  destruct (dict_comprehension_keys items [] (NoDup_nil _))
    as (ND0 & Keys0 & Ins0).
  apply joined_rooms_loop_invariant in L as (ND & Keys & Filled).
  - repeat split; try assumption.
    + exists items. split; [exact G|]. intros k.
      rewrite Keys, Keys0. simpl. tauto.
    + apply Forall_forall. intros [k v] I. now apply Filled in I.
  - exact ND0.
  - intros k I. now apply Ins0 in I as [[]|[_ I]].
  - intros k info I. now apply Ins0 in I as [[]|[[=] _]].
Qed.

End RoomFacts.

Lemma room_info_invariants_witness :
  invite MoreSamples.two_rooms_info = [] /\
  leave MoreSamples.two_rooms_info = [] /\
  map fst (join MoreSamples.two_rooms_info) = ["!one:x"; "!two:x"] /\
  Forall (fun kv => exists info, snd kv = Some info /\ state info = [])
         (join MoreSamples.two_rooms_info).
Proof.
  destruct (@room_info_invariants Wire.validator Wire.api unit
              (JObj [("join",
                      JObj [("!one:x",
                             Samples.room [Samples.hi; Samples.notice]);
                            ("!two:x", Samples.room [])])])
              0 None MoreSamples.two_rooms_info eq_refl)
    as (I & L & _ & _ & F).
  repeat split; assumption || reflexivity.
Defined.

Section SyncFacts.
Context `{SchemaValidator} `{Api} {Olm : Type}.
Implicit Types (olm : option Olm) (p raw : json).

Lemma dict_comprehension_fresh (items : list (string * json))
    (acc : list (string * option JoindedInfo)) :
  NoDup (map fst acc ++ map fst items) ->
  fold_left (fun d kv => dict_set (fst kv) None d) items acc
  = acc ++ map (fun kv => (fst kv, None)) items.
Proof.
  revert acc. induction items as [|[k0 room] items IH]; intros acc ND; simpl.
  - now rewrite app_nil_r.
  - rewrite dict_set_absent.
    + rewrite IH; [now rewrite <- app_assoc|].
      rewrite map_app, <- app_assoc. exact ND.
    + apply NoDup_remove_2 in ND. intros I. apply ND.
      apply in_or_app. now left.
Qed.

Lemma dict_set_middle {V} (k : string) (v v0 : V)
    (done tail : list (string * V)) :
  ~ In k (map fst done) ->
  dict_set k v (done ++ (k, v0) :: tail) = done ++ (k, v) :: tail.
Proof.
  induction done as [|[k' v'] done IH]; simpl; intros N.
  - now rewrite String.eqb_refl.
  - destruct (String.eqb_spec k' k) as [->|N']; [tauto|].
    rewrite IH by tauto. reflexivity.
Qed.

Lemma joined_rooms_loop_fills (todo : list (string * json))
    (done d' : list (string * option JoindedInfo)) :
  NoDup (map fst done ++ map fst todo) ->
  SyncRepsponse.joined_rooms_loop (Olm := Olm) todo
    (done ++ map (fun kv => (fst kv, None)) todo) = Ok d' ->
  exists infos, d' = done ++ infos /\ Forall2 (room_decoded Olm) todo infos.
Proof.
  revert done. induction todo as [|[k0 room] todo IH]; intros done ND; simpl.
  - intros [= <-]. exists []. split; [reflexivity|constructor].
  - intros L. apply bind_ok_inv in L as (raw & G & L).
    apply bind_ok_inv in L as (tl & T & L).
    rewrite dict_set_middle in L.
    + change (done ++ (k0, Some (mkJoindedInfo tl []))
              :: map (fun kv => (fst kv, None)) todo)
        with (done ++ [(k0, Some (mkJoindedInfo tl []))]
              ++ map (fun kv : string * json =>
                        (fst kv, @None JoindedInfo)) todo) in L.
      rewrite app_assoc in L. apply IH in L as (infos & -> & F).
      * exists ((k0, Some (mkJoindedInfo tl [])) :: infos).
        split; [now rewrite <- app_assoc|].
        constructor; [|exact F]. split; [reflexivity|]. simpl. eauto.
      * rewrite map_app, <- app_assoc. exact ND.
    + apply NoDup_remove_2 in ND. intros I. apply ND.
      apply in_or_app. now left.
Qed.

(** X10.  When the payload's [join] has every room id once, the joined
    rooms of the result are the rooms of the payload, in the payload's
    order, each with the timeline [_get_timeline] makes of the room's
    [timeline] under its defaults ([max_events=0], [olm=None]) and with an
    empty state. *)
Theorem room_info_join_is_room_by_room raw (items : list (string * json))
    (max_events : Z) olm (rooms : RoomInfo) :
  getitem raw "join" = Ok (JObj items) ->
  NoDup (map fst items) ->
  SyncRepsponse._get_room_info raw max_events olm = Ok rooms ->
  Forall2 (room_decoded Olm) items (join rooms).
Proof.
  intros G ND. unfold SyncRepsponse._get_room_info.
  rewrite G. cbn [bind dict_items]. intros R.
  apply bind_ok_inv in R as (d' & L & R). injection R as <-. simpl.
  rewrite dict_comprehension_fresh in L by exact ND.
  apply (joined_rooms_loop_fills items []) in L as (infos & -> & F);
    [exact F|exact ND].
Qed.

Lemma error_from_dict_is_error p (r : Response) :
  ErrorResponse.from_dict p = Ok r ->
  exists message code, r = ErrorResponse message code.
Proof.
  unfold ErrorResponse.from_dict, ErrorResponse.init.
  destruct (validate_json p Schemas.error).
  - intros [= <-]. eauto.
  - intros D. bind_inv D. injection D as <-. eauto.
Qed.

Lemma from_dict_rooms p (max_events : Z) olm
    (next_batch : json) (rooms : RoomInfo) (partial : bool) :
  SyncRepsponse.from_dict p max_events olm
  = Ok (SyncRepsponse next_batch rooms partial) ->
  exists raw_rooms,
    SyncRepsponse._get_room_info raw_rooms max_events olm = Ok rooms.
Proof.
  unfold SyncRepsponse.from_dict.
  destruct (validate p Schemas.sync) as [[]|e]; cbn [bind].
  - destruct (getitem p "rooms") as [raw_rooms|e]; cbn [bind].
    + destruct (SyncRepsponse._get_room_info raw_rooms max_events olm)
        as [rooms'|[x| | |]] eqn:R; try discriminate.
      * intros D. apply bind_ok_inv in D as (nb & _ & D).
        injection D as _ <- _. eauto.
      * intros D. apply error_from_dict_is_error in D as (m & c & [=]).
    + destruct e; try discriminate.
      intros D. apply error_from_dict_is_error in D as (m & c & [=]).
  - destruct e; try discriminate.
    intros D. apply error_from_dict_is_error in D as (m & c & [=]).
Qed.

(** X11.  A [SyncRepsponse] comes only from a payload the sync schema
    accepts: its [next_batch] is the payload's, its rooms what
    [_get_room_info] makes of the payload's [rooms], and its [partial] is
    [False]. *)
Theorem sync_response_inversion p (max_events : Z) olm
    (next_batch : json) (rooms : RoomInfo) (partial : bool) :
  SyncRepsponse.from_dict p max_events olm
  = Ok (SyncRepsponse next_batch rooms partial) ->
  accepts Schemas.sync p /\
  getitem p "next_batch" = Ok next_batch /\
  partial = false /\
  exists raw_rooms,
    getitem p "rooms" = Ok raw_rooms /\
    SyncRepsponse._get_room_info raw_rooms max_events olm = Ok rooms.
Proof.
  unfold SyncRepsponse.from_dict, validate, accepts.
  destruct (validate_json p Schemas.sync) as [x|] eqn:V; cbn [bind].
  - intros D. apply error_from_dict_is_error in D as (m & c & [=]).
  - destruct (getitem p "rooms") as [raw_rooms|e] eqn:G; cbn [bind].
    + destruct (SyncRepsponse._get_room_info raw_rooms max_events olm)
        as [rooms'|[x| | |]] eqn:R; try discriminate.
      * intros D. apply bind_ok_inv in D as (nb & Gn & D).
        injection D as <- <- <-. eauto 10.
      * intros D. apply error_from_dict_is_error in D as (m & c & [=]).
    + pose proof (getitem_no_schema_exn p "rooms") as N. rewrite G in N.
      destruct e; try discriminate. contradiction.
Qed.

(** X12.  An [ErrorResponse] has one of two causes: the sync schema
    rejects the payload, or it accepts the payload and one of the joined
    rooms has a timeline the room-timeline schema rejects.  No event of a
    timeline turns the sync into an error.  The response is the one
    [ErrorResponse.from_dict] makes of the payload. *)
Theorem error_response_inversion p (max_events : Z) olm
    (message code : json) :
  SyncRepsponse.from_dict p max_events olm
  = Ok (ErrorResponse message code) ->
  (~ accepts Schemas.sync p \/
   (accepts Schemas.sync p /\
    exists raw_rooms items room_id room_dict,
      getitem p "rooms" = Ok raw_rooms /\
      getitem raw_rooms "join" = Ok (JObj items) /\
      In (room_id, room_dict) items /\
      timeline_rejected room_dict)) /\
  ErrorResponse.from_dict p = Ok (ErrorResponse message code).
Proof.
  unfold SyncRepsponse.from_dict, validate, accepts.
  destruct (validate_json p Schemas.sync) as [x|] eqn:V; cbn [bind].
  - intros D. split; [left; congruence|exact D].
  - destruct (getitem p "rooms") as [raw_rooms|e] eqn:G; cbn [bind].
    + destruct (SyncRepsponse._get_room_info raw_rooms max_events olm)
        as [rooms'|[x| | |]] eqn:R; try discriminate.
      * intros D. apply bind_ok_inv in D as (nb & _ & [=]).
      * intros D. split; [|exact D]. right. split; [reflexivity|].
        unfold SyncRepsponse._get_room_info in R.
        pose proof (getitem_no_schema_exn raw_rooms "join") as N.
        destruct (getitem raw_rooms "join") as [joined|e] eqn:Gj;
          cbn [bind] in R; [|injection R as ->; contradiction].
        destruct joined as [| | | | |items]; try discriminate R.
        cbn [bind dict_items] in R.
        destruct (SyncRepsponse.joined_rooms_loop items _) as [d'|e] eqn:L;
          cbn [bind] in R; [discriminate R|]. injection R as ->.
        apply joined_rooms_loop_schema_exn in L.
        apply Exists_exists in L as ([room_id room_dict] & I & Rej).
        exists raw_rooms, items, room_id, room_dict. auto.
    + pose proof (getitem_no_schema_exn p "rooms") as N. rewrite G in N.
      destruct e; try discriminate. contradiction.
Qed.

End SyncFacts.

Lemma room_info_join_is_room_by_room_witness :
  Forall2 (@room_decoded Wire.validator Wire.api unit)
    [("!one:x", Samples.room [Samples.hi; Samples.notice]);
     ("!two:x", Samples.room [])]
    (join MoreSamples.two_rooms_info).
Proof.
  apply (@room_info_join_is_room_by_room Wire.validator Wire.api unit
           (JObj [("join",
                   JObj [("!one:x",
                          Samples.room [Samples.hi; Samples.notice]);
                         ("!two:x", Samples.room [])])])
           [("!one:x", Samples.room [Samples.hi; Samples.notice]);
            ("!two:x", Samples.room [])]
           0 None MoreSamples.two_rooms_info).
  - reflexivity.
  - repeat constructor; simpl; intuition discriminate.
  - reflexivity.
Defined.

Lemma sync_response_inversion_witness :
  @accepts Wire.validator Schemas.sync MoreSamples.two_rooms /\
  getitem MoreSamples.two_rooms "next_batch" = Ok (JStr "s1") /\
  false = false /\
  exists raw_rooms,
    getitem MoreSamples.two_rooms "rooms" = Ok raw_rooms /\
    @SyncRepsponse._get_room_info Wire.validator Wire.api unit
      raw_rooms 0 None = Ok MoreSamples.two_rooms_info.
Proof.
  apply (@sync_response_inversion Wire.validator Wire.api unit
           MoreSamples.two_rooms 0 None).
  reflexivity.
Defined.

Lemma error_response_inversion_witness :
  (~ @accepts Wire.validator Schemas.sync
       (Samples.sync_payload
          [("!good:x", Samples.room [Samples.hi]);
           ("!bad:x", Samples.broken_room)]) \/
   (@accepts Wire.validator Schemas.sync
      (Samples.sync_payload
         [("!good:x", Samples.room [Samples.hi]);
          ("!bad:x", Samples.broken_room)]) /\
    exists raw_rooms items room_id room_dict,
      getitem (Samples.sync_payload
                 [("!good:x", Samples.room [Samples.hi]);
                  ("!bad:x", Samples.broken_room)]) "rooms"
      = Ok raw_rooms /\
      getitem raw_rooms "join" = Ok (JObj items) /\
      In (room_id, room_dict) items /\
      @timeline_rejected Wire.validator room_dict)) /\
  @ErrorResponse.from_dict Wire.validator
    (Samples.sync_payload
       [("!good:x", Samples.room [Samples.hi]);
        ("!bad:x", Samples.broken_room)])
  = Ok (ErrorResponse (JStr "Unknown error") (JStr "")).
Proof.
  apply (@error_response_inversion Wire.validator Wire.api unit
           (Samples.sync_payload
              [("!good:x", Samples.room [Samples.hi]);
               ("!bad:x", Samples.broken_room)]) 0 None).
  reflexivity.
Defined.

(** ** Login *)

Lemma wire_login_sound : @login_sound Wire.validator.
Proof.
  intros p Acc. apply WireFacts.accepts_conforms in Acc. simpl in Acc.
  unfold Wire.login in Acc.
  apply andb_prop in Acc as [Acc T]. apply andb_prop in Acc as [U D].
  repeat split; eapply WireFacts.required_has_key; eassumption.
Qed.

(** X13.  Let the login and the error schema keep their word on the keys
    read after them.  [LoginResponse.from_dict] returns for every payload:
    a [LoginResponse] with the payload's [user_id], [device_id] and
    [access_token] when the login schema accepts it, and what
    [ErrorResponse.from_dict] makes of the payload, an [ErrorResponse],
    when it does not. *)
Theorem login_from_dict_outcomes `{SchemaValidator} (p : json) :
  login_sound -> error_sound ->
  match validate_json p Schemas.login with
  | None =>
      exists user_id device_id access_token,
        getitem p "user_id" = Ok user_id /\
        getitem p "device_id" = Ok device_id /\
        getitem p "access_token" = Ok access_token /\
        LoginResponse.from_dict p
        = Ok (LoginResponse user_id device_id access_token)
  | Some _ =>
      LoginResponse.from_dict p = ErrorResponse.from_dict p /\
      exists message code,
        LoginResponse.from_dict p = Ok (ErrorResponse message code)
  end.
Proof.
  intros SL SE. unfold LoginResponse.from_dict.
  destruct (validate_json p Schemas.login) as [x|] eqn:V.
  - split; [reflexivity|]. now apply error_from_dict_total.
  - destruct (SL p V) as ([u Gu] & [d Gd] & [t Gt]).
    rewrite Gu, Gd, Gt. cbn [bind]. eauto 10.
Qed.

Lemma login_from_dict_outcomes_witness :
  @LoginResponse.from_dict Wire.validator MoreSamples.login_answer
  = Ok (LoginResponse (JStr "@a:x") (JStr "DEV1") (JStr "secret")) /\
  @LoginResponse.from_dict Wire.validator Samples.server_error
  = Ok (ErrorResponse (JStr "Forbidden") (JStr "M_FORBIDDEN")).
Proof.
  split.
  - destruct (@login_from_dict_outcomes Wire.validator
                MoreSamples.login_answer
                wire_login_sound WireFacts.wire_error_sound)
      as (u & d & t & Gu & Gd & Gt & D).
    rewrite D. vm_compute in Gu, Gd, Gt. congruence.
  - rewrite (proj1 (@login_from_dict_outcomes Wire.validator
                      Samples.server_error
                      wire_login_sound WireFacts.wire_error_sound)).
    reflexivity.
Defined.

(** ** Rendering *)

Section RenderingFacts.
Context `{SchemaValidator} `{Api} `{ContainerRepr} {Olm : Type}.
Implicit Types (olm : option Olm) (p : json).

Lemma room_messages_loop_total (todo : list (string * option JoindedInfo))
    (room_messages : list string) :
  Forall (fun kv => exists info, snd kv = Some info) todo ->
  exists out, room_messages_loop todo room_messages = Ok out.
Proof.
  intros F. revert room_messages.
  induction F as [|[room_id room_info] todo [info E] F IH];
    intros room_messages; simpl.
  - eauto.
  - simpl in E. subst room_info. apply IH.
Qed.

(** X14.  Every response [SyncRepsponse.from_dict] returns can be
    rendered: [__str__] finds an info under every joined room, so the
    [AttributeError] of a [None] left in the dict cannot occur. *)
Theorem decoded_sync_response_renders p (max_events : Z) olm
    (response : Response) :
  SyncRepsponse.from_dict p max_events olm = Ok response ->
  exists text, Response__str__ response = Ok text.
Proof.
  intros D. destruct response as [message code|u d t|nb rooms partial];
    simpl; eauto.
  apply from_dict_rooms in D as (raw_rooms & R).
  apply get_room_info_filled in R.
  unfold SyncRepsponse__str__.
  destruct (room_messages_loop_total (join rooms) [] R) as [out ->].
  cbn [bind]. eauto.
Qed.

(** X15.  The text of a decoded [BadEvent] names the sender where it
    announces the type, and the type where it announces the origin: for a
    payload with sender [s] and type [ty], both strings, it is
    ["Bad event of type s, from ty."]. *)
Theorem decoded_bad_event_text p (ev : Event) (s ty : string) :
  BadEvent.from_dict p = Ok ev ->
  getitem p "sender" = Ok (JStr s) ->
  getitem p "type" = Ok (JStr ty) ->
  entry__str__ (Some ev)
  = ("Bad event of type " ++ s ++ ", from " ++ ty ++ ".")%string.
Proof.
  intros D Gs Gt.
  apply bad_event_from_dict_inv in D
    as (e & s' & t & ty' & _ & Gs' & _ & Gt' & ->).
  assert (s' = JStr s) by congruence. assert (ty' = JStr ty) by congruence.
  subst. reflexivity.
Qed.

Lemma redacted_from_dict_accepted p (e s t ty u because redacter : json)
    (content : list (string * json)) :
  accepts Schemas.redacted_event p ->
  getitem p "event_id" = Ok e -> getitem p "sender" = Ok s ->
  getitem p "origin_server_ts" = Ok t -> getitem p "type" = Ok ty ->
  getitem p "unsigned" = Ok u ->
  getitem u "redacted_because" = Ok because ->
  getitem because "sender" = Ok redacter ->
  getitem because "content" = Ok (JObj content) ->
  RedactedEvent.from_dict p
  = Ok (RedactedEvent e s t ty redacter (or_none (lookup "reason" content))).
Proof.
  intros Acc Ge Gs Gt Gty Gu Gb Gr Gc. unfold RedactedEvent.from_dict.
  rewrite Acc, Gu. cbn [bind]. rewrite Gb. cbn [bind].
  rewrite Gr, Gc. cbn [bind]. rewrite contains_dict. cbn [bind getitem].
  destruct (lookup "reason" content); cbn [bind or_none];
    now rewrite Ge, Gs, Gt, Gty.
Qed.

(** X16.  The text of a decoded redaction gives the reason only when
    there is one to show: with no [reason] in the redaction's content,
    with [null], and with the empty string the text ends after the
    redacter, and the three cannot be told apart. *)
Theorem decoded_redaction_text_without_reason p
    (e s t ty u because redacter : json) (content : list (string * json)) :
  accepts Schemas.redacted_event p ->
  getitem p "event_id" = Ok e -> getitem p "sender" = Ok s ->
  getitem p "origin_server_ts" = Ok t -> getitem p "type" = Ok ty ->
  getitem p "unsigned" = Ok u ->
  getitem u "redacted_because" = Ok because ->
  getitem because "sender" = Ok redacter ->
  getitem because "content" = Ok (JObj content) ->
  lookup "reason" content = None \/
  lookup "reason" content = Some JNull \/
  lookup "reason" content = Some (JStr "") ->
  exists ev,
    RedactedEvent.from_dict p = Ok ev /\
    entry__str__ (Some ev)
    = ("Redacted event of type " ++ str ty ++ ", by " ++ str redacter
       ++ ".")%string.
Proof.
  intros Acc Ge Gs Gt Gty Gu Gb Gr Gc L.
  eexists. split.
  - eapply redacted_from_dict_accepted; eassumption.
  - destruct L as [->|[->| ->]]; reflexivity.
Qed.

(** X17.  With a reason that is a string and not empty, the text of a
    decoded redaction ends with [", reason: "], the reason and a full
    stop. *)
Theorem decoded_redaction_text_with_reason p
    (e s t ty u because redacter : json) (content : list (string * json))
    (reason : string) :
  accepts Schemas.redacted_event p ->
  getitem p "event_id" = Ok e -> getitem p "sender" = Ok s ->
  getitem p "origin_server_ts" = Ok t -> getitem p "type" = Ok ty ->
  getitem p "unsigned" = Ok u ->
  getitem u "redacted_because" = Ok because ->
  getitem because "sender" = Ok redacter ->
  getitem because "content" = Ok (JObj content) ->
  lookup "reason" content = Some (JStr reason) ->
  reason <> EmptyString ->
  exists ev,
    RedactedEvent.from_dict p = Ok ev /\
    entry__str__ (Some ev)
    = ("Redacted event of type " ++ str ty ++ ", by " ++ str redacter
       ++ ", reason: " ++ reason ++ ".")%string.
Proof.
  intros Acc Ge Gs Gt Gty Gu Gb Gr Gc L N.
  eexists. split.
  - eapply redacted_from_dict_accepted; eassumption.
  - rewrite L. cbn [or_none entry__str__]. unfold RedactedEvent__str__.
    cbn [truthy str].
    destruct (String.eqb_spec reason "") as [->|_]; [contradiction|].
    reflexivity.
Qed.

End RenderingFacts.

Lemma decoded_sync_response_renders_witness :
  exists text,
    @Response__str__ sample_repr
      (SyncRepsponse (JStr "s1") MoreSamples.two_rooms_info false)
    = Ok text.
Proof.
  apply (@decoded_sync_response_renders Wire.validator Wire.api sample_repr
           unit MoreSamples.two_rooms 0 None).
  reflexivity.
Defined.

Lemma decoded_bad_event_text_witness :
  @entry__str__ sample_repr
    (Some (BadEvent (JStr "$5") (JStr "@a:x") (JNum 100)
             (JStr "m.room.message") (Wire.serialise Samples.no_msgtype)))
  = "Bad event of type @a:x, from m.room.message.".
Proof.
  apply (@decoded_bad_event_text Wire.api sample_repr Samples.no_msgtype
           (BadEvent (JStr "$5") (JStr "@a:x") (JNum 100)
              (JStr "m.room.message") (Wire.serialise Samples.no_msgtype))
           "@a:x" "m.room.message");
    reflexivity.
Defined.

Lemma decoded_redaction_text_without_reason_witness :
  exists ev,
    @RedactedEvent.from_dict Wire.validator Wire.api
      MoreSamples.redacted_empty_reason = Ok ev /\
    @entry__str__ sample_repr (Some ev)
    = "Redacted event of type m.room.message, by @mod:x.".
Proof.
  apply (@decoded_redaction_text_without_reason Wire.validator Wire.api
           sample_repr MoreSamples.redacted_empty_reason
           (JStr "$8") (JStr "@a:x") (JNum 100) (JStr "m.room.message")
           (Samples.redaction (JObj [("reason", JStr "")]))
           (JObj [("sender", JStr "@mod:x");
                  ("content", JObj [("reason", JStr "")])])
           (JStr "@mod:x") [("reason", JStr "")]);
    try reflexivity.
  right. right. reflexivity.
Defined.

Lemma decoded_redaction_text_with_reason_witness :
  exists ev,
    @RedactedEvent.from_dict Wire.validator Wire.api Samples.redacted
    = Ok ev /\
    @entry__str__ sample_repr (Some ev)
    = "Redacted event of type m.room.message, by @mod:x, reason: spam.".
Proof.
  apply (@decoded_redaction_text_with_reason Wire.validator Wire.api
           sample_repr Samples.redacted
           (JStr "$3") (JStr "@a:x") (JNum 100) (JStr "m.room.message")
           (Samples.redaction (JObj [("reason", JStr "spam")]))
           (JObj [("sender", JStr "@mod:x");
                  ("content", JObj [("reason", JStr "spam")])])
           (JStr "@mod:x") [("reason", JStr "spam")] "spam");
    try reflexivity.
  discriminate.
Defined.

(** ** To-device envelopes *)

(** X18.  Reading an envelope back: under ["messages"], then under the
    recipient, then under the recipient's device, [as_dict] holds the
    content of the message, for the base class and for a key request
    alike, whatever the recipient and device ids are. *)
Theorem envelope_lookup_round_trip (message : ToDeviceMessage.t)
    (request_id session_id room_id algorithm : string) :
  let read (envelope : json) :=
    messages <- getitem envelope "messages" ;;
    by_device <- getitem messages (ToDeviceMessage.recipient message) ;;
    getitem by_device (ToDeviceMessage.recipient_device message) in
  read (as_dict message) = Ok (ToDeviceMessage.content message) /\
  read (as_dict (RoomKeyRequestMessage.mk message request_id session_id
                   room_id algorithm))
  = Ok (ToDeviceMessage.content message).
Proof.
  destruct message as [ty recipient device content].
  split; cbn; rewrite String.eqb_refl; cbn; rewrite String.eqb_refl;
    reflexivity.
Qed.

(** X19.  Two messages with the same envelope have the same recipient,
    the same device and the same content; the type of a message is not
    in its envelope, so it need not be the same. *)
Theorem envelope_determines_recipient_device_content
    (m1 m2 : ToDeviceMessage.t) :
  as_dict m1 = as_dict m2 <->
  ToDeviceMessage.recipient m1 = ToDeviceMessage.recipient m2 /\
  ToDeviceMessage.recipient_device m1 = ToDeviceMessage.recipient_device m2 /\
  ToDeviceMessage.content m1 = ToDeviceMessage.content m2.
Proof.
  destruct m1 as [t1 r1 d1 c1], m2 as [t2 r2 d2 c2]. cbn. split.
  - intros [= -> -> ->]. auto.
  - intros (-> & -> & ->). reflexivity.
Qed.

Lemma envelope_determines_recipient_device_content_witness :
  as_dict (ToDeviceMessage.mk "m.dummy" "@b:x" "DEV1" (JObj []))
  = as_dict (ToDeviceMessage.mk "m.room_key_request" "@b:x" "DEV1" (JObj [])).
Proof.
  apply (proj2 (envelope_determines_recipient_device_content
                  (ToDeviceMessage.mk "m.dummy" "@b:x" "DEV1" (JObj []))
                  (ToDeviceMessage.mk "m.room_key_request" "@b:x" "DEV1"
                     (JObj [])))).
  repeat split.
Defined.

(** ** The error of the server reaches the caller *)

(** X20.  When the sync schema rejects a payload that the error schema
    accepts, [SyncRepsponse.from_dict] returns the [ErrorResponse] with
    the payload's [error] and [errcode]; when the error schema rejects it
    as well, the placeholder with ["Unknown error"] and an empty code. *)
Theorem rejected_sync_payload_gives_its_error `{SchemaValidator} `{Api}
    {Olm : Type} (p : json) (max_events : Z) (olm : option Olm) :
  ~ accepts Schemas.sync p ->
  match validate_json p Schemas.error with
  | None =>
      forall message code,
        getitem p "error" = Ok message -> getitem p "errcode" = Ok code ->
        SyncRepsponse.from_dict p max_events olm
        = Ok (ErrorResponse message code)
  | Some _ =>
      SyncRepsponse.from_dict p max_events olm
      = Ok (ErrorResponse (JStr "Unknown error") (JStr ""))
  end.
Proof.
  intros N. destruct (validate_rejected _ _ N) as [x V].
  unfold SyncRepsponse.from_dict. rewrite V. cbn [bind].
  unfold ErrorResponse.from_dict.
  destruct (validate_json p Schemas.error); [reflexivity|].
  intros message code -> ->. reflexivity.
Qed.

Lemma rejected_sync_payload_gives_its_error_witness :
  @SyncRepsponse.from_dict Wire.validator Wire.api unit
    Samples.server_error 0 None
  = Ok (ErrorResponse (JStr "Forbidden") (JStr "M_FORBIDDEN")).
Proof.
  assert (N : ~ @accepts Wire.validator Schemas.sync Samples.server_error)
    by (unfold accepts; vm_compute; discriminate).
  apply (@rejected_sync_payload_gives_its_error Wire.validator Wire.api unit
           Samples.server_error 0 None N (JStr "Forbidden")
           (JStr "M_FORBIDDEN")); reflexivity.
Defined.

(** ** What leaves [SyncRepsponse.from_dict], for any validator *)

Section SyncOutcomes.
Context `{SchemaValidator} `{Api} {Olm : Type}.
Implicit Types (olm : option Olm) (p raw : json).

(** C2 (as amended).  [SyncRepsponse.from_dict] returns a [SyncRepsponse]
    or an [ErrorResponse], or it raises an exception that is not one of
    the two the schema library raises: [SchemaError] and
    [ValidationError] never leave it, but it has no handler for the
    [KeyError], [TypeError] and [AttributeError] of a subscript, so a
    payload that a schema accepts without a key the decoders read makes
    it raise.  It raises only on a payload that the sync schema or the
    error schema accepts. *)
Theorem sync_from_dict_outcomes p (max_events : Z) olm :
  (exists next_batch rooms,
     SyncRepsponse.from_dict p max_events olm
     = Ok (SyncRepsponse next_batch rooms false)) \/
  (exists message code,
     SyncRepsponse.from_dict p max_events olm
     = Ok (ErrorResponse message code)) \/
  (exists e,
     SyncRepsponse.from_dict p max_events olm = Raise e /\
     ((exists k, e = KeyError k) \/ e = TypeError \/ e = AttributeError) /\
     (accepts Schemas.sync p \/ accepts Schemas.error p)).
Proof.
  assert (Other : forall e, (forall x, e <> SchemaExn x) ->
            (exists k, e = KeyError k) \/ e = TypeError \/ e = AttributeError).
  { intros [x|k| |] N; eauto. now elim (N x). }
  assert (Err : (exists message code,
                   ErrorResponse.from_dict p
                   = Ok (ErrorResponse message code)) \/
                (exists e, ErrorResponse.from_dict p = Raise e /\
                   (forall x, e <> SchemaExn x) /\
                   accepts Schemas.error p)).
  { pose proof (error_from_dict_no_schema_exn p) as N.
    destruct (ErrorResponse.from_dict p) as [r|e] eqn:D.
    - left. now apply error_from_dict_is_error in D as (m & c & ->); eauto.
    - right. exists e. split; [reflexivity|]. split.
      + intros x ->. exact N.
      + unfold ErrorResponse.from_dict in D. unfold accepts.
        destruct (validate_json p Schemas.error); [discriminate D|reflexivity]. }
  assert (Degraded :
            SyncRepsponse.from_dict p max_events olm
            = ErrorResponse.from_dict p ->
            (exists message code,
               SyncRepsponse.from_dict p max_events olm
               = Ok (ErrorResponse message code)) \/
            (exists e,
               SyncRepsponse.from_dict p max_events olm = Raise e /\
               ((exists k, e = KeyError k) \/ e = TypeError
                \/ e = AttributeError) /\
               (accepts Schemas.sync p \/ accepts Schemas.error p))).
  { intros ->. destruct Err as [E|(e & -> & N & A)]; [now left|].
    right. exists e. auto. }
  unfold SyncRepsponse.from_dict, validate, accepts in *.
  destruct (validate_json p Schemas.sync) as [x|] eqn:V; cbn [bind] in *.
  - right. now apply Degraded.
  - pose proof (getitem_no_schema_exn p "rooms") as N1.
    destruct (getitem p "rooms") as [raw_rooms|e1]; cbn [bind] in *.
    + destruct (SyncRepsponse._get_room_info raw_rooms max_events olm)
        as [rooms|[x|k| |]].
      * pose proof (getitem_no_schema_exn p "next_batch") as N2.
        destruct (getitem p "next_batch") as [nb|e2]; cbn [bind].
        -- left. eauto.
        -- right. right. exists e2. split; [reflexivity|]. split; [|now left].
           apply Other. intros y ->. exact N2.
      * right. now apply Degraded.
      * right. right. exists (KeyError k). eauto 10.
      * right. right. exists TypeError. eauto 10.
      * right. right. exists AttributeError. eauto 10.
    + destruct e1 as [x|k| |]; [contradiction| | |];
        right; right; eexists; eauto 10.
Qed.

Lemma joined_rooms_loop_first_rejected
    (before after : list (string * json)) (room_id : string)
    (room_dict : json) (joined_rooms : list (string * option JoindedInfo)) :
  Forall (room_decodes Olm) before ->
  timeline_rejected room_dict ->
  exists x,
    SyncRepsponse.joined_rooms_loop (Olm := Olm)
      (before ++ (room_id, room_dict) :: after) joined_rooms
    = Raise (SchemaExn x).
Proof.
  intros F (raw & G & N). revert joined_rooms.
  induction F as [|[k room] before (raw' & tl & G' & T) F IH];
    intros joined_rooms; simpl.
  - rewrite G. cbn [bind]. unfold SyncRepsponse._get_timeline.
    destruct (validate_rejected _ _ N) as [x ->]. cbn [bind]. eauto.
  - simpl in G'. rewrite G'. cbn [bind]. rewrite T. cbn [bind]. apply IH.
Qed.

(** C6 (as amended).  A payload the sync schema rejects, and a payload
    the sync schema accepts that has, under [rooms.join], a room whose
    timeline the room-timeline schema rejects after rooms that decode,
    make [SyncRepsponse.from_dict] return what [ErrorResponse.from_dict]
    makes of the payload, whatever the other rooms and events are: an
    [ErrorResponse] whenever it returns, the placeholder when the error
    schema rejects the payload, and the payload's [error] and [errcode]
    when the error schema accepts it and they are there. *)
Theorem container_schema_failure_degrades_to_error p (max_events : Z) olm :
  ~ accepts Schemas.sync p \/
  (accepts Schemas.sync p /\
   exists raw_rooms before room_id room_dict after,
     getitem p "rooms" = Ok raw_rooms /\
     getitem raw_rooms "join"
     = Ok (JObj (before ++ (room_id, room_dict) :: after)) /\
     Forall (room_decodes Olm) before /\
     timeline_rejected room_dict) ->
  SyncRepsponse.from_dict p max_events olm = ErrorResponse.from_dict p /\
  (forall r, SyncRepsponse.from_dict p max_events olm = Ok r ->
     exists message code, r = ErrorResponse message code) /\
  match validate_json p Schemas.error with
  | Some _ =>
      SyncRepsponse.from_dict p max_events olm
      = Ok (ErrorResponse (JStr "Unknown error") (JStr ""))
  | None =>
      forall message code,
        getitem p "error" = Ok message -> getitem p "errcode" = Ok code ->
        SyncRepsponse.from_dict p max_events olm
        = Ok (ErrorResponse message code)
  end.
Proof.
  intros M.
  assert (D : SyncRepsponse.from_dict p max_events olm
              = ErrorResponse.from_dict p).
  { unfold SyncRepsponse.from_dict.
    destruct M as [N|(Acc & raw_rooms & before & room_id & room_dict & after
                      & Gr & Gj & F & R)].
    - destruct (validate_rejected _ _ N) as [x ->]. reflexivity.
    - rewrite (validate_accepted _ _ Acc). cbn [bind]. rewrite Gr. cbn [bind].
      unfold SyncRepsponse._get_room_info. rewrite Gj. cbn [bind dict_items].
      destruct (joined_rooms_loop_first_rejected before after room_id
                  room_dict
                  (fold_left (fun d kv => dict_set (fst kv) None d)
                     (before ++ (room_id, room_dict) :: after) []) F R)
        as [x ->].
      reflexivity. }
  rewrite D. split; [reflexivity|]. split.
  - intros r. apply error_from_dict_is_error.
  - unfold ErrorResponse.from_dict.
    destruct (validate_json p Schemas.error); [reflexivity|].
    intros message code -> ->. reflexivity.
Qed.

End SyncOutcomes.

(** C2 as stated fails: with a room-message schema that does not ask for
    [content], the sync payload whose timeline holds a message without
    [content] passes every schema on its way, and
    [RoomMessage.from_dict] raises [KeyError] on [parsed_dict["content"]];
    nothing catches it. *)
Lemma accepted_event_without_content_raises_key_error :
  @validate_json Shallow.validator Shallow.sync_with_no_content Schemas.sync
  = None /\
  @validate_json Shallow.validator Shallow.no_content Schemas.room_event
  = None /\
  @validate_json Shallow.validator Shallow.no_content Schemas.room_message
  = None /\
  @SyncRepsponse.from_dict Shallow.validator Wire.api unit
    Shallow.sync_with_no_content 0 None
  = Raise (KeyError "content").
Proof. repeat split. Qed.

(** A good room before a room whose timeline has no [events], and a
    payload the sync schema rejects: the whole call is the placeholder
    error. *)
Lemma container_schema_failure_degrades_to_error_witness :
  @SyncRepsponse.from_dict Wire.validator Wire.api unit
    (Samples.sync_payload
       [("!good:x", Samples.room [Samples.hi]);
        ("!bad:x", Samples.broken_room)]) 0 None
  = Ok (ErrorResponse (JStr "Unknown error") (JStr "")) /\
  @SyncRepsponse.from_dict Wire.validator Wire.api unit
    Samples.server_error 0 None
  = Ok (ErrorResponse (JStr "Forbidden") (JStr "M_FORBIDDEN")).
Proof.
  split.
  - refine (proj2 (proj2 (@container_schema_failure_degrades_to_error
                            Wire.validator Wire.api unit
                            (Samples.sync_payload
                               [("!good:x", Samples.room [Samples.hi]);
                                ("!bad:x", Samples.broken_room)])
                            0 None _))).
    right. split; [reflexivity|].
    exists (JObj [("join",
                   JObj ([("!good:x", Samples.room [Samples.hi])]
                         ++ ("!bad:x", Samples.broken_room) :: []))]).
    exists [("!good:x", Samples.room [Samples.hi])].
    exists "!bad:x", Samples.broken_room, [].
    split; [reflexivity|]. split; [reflexivity|]. split.
    + constructor; [|constructor]. do 2 eexists. split; reflexivity.
    + exists (JObj [("limited", JBool false); ("prev_batch", JStr "p0")]).
      split; [reflexivity|]. unfold accepts. vm_compute. discriminate.
  - refine (proj2 (proj2 (@container_schema_failure_degrades_to_error
                            Wire.validator Wire.api unit
                            Samples.server_error 0 None _))
              (JStr "Forbidden") (JStr "M_FORBIDDEN") eq_refl eq_refl).
    left. unfold accepts. vm_compute. discriminate.
Defined.

(** C6 as stated fails on its own example: with a sync schema that asks
    for a dict under [rooms] and for nothing below it, the payload
    whose [rooms] has no [join] is accepted, and [_get_room_info] raises
    [KeyError] on [parsed_dict["join"]]; the call is not degraded to an
    [ErrorResponse]. *)
Lemma rooms_without_join_raises_key_error :
  @validate_json Shallow.validator Samples.no_join Schemas.sync = None /\
  getitem Samples.no_join "rooms" = Ok (JObj [("leave", JObj [])]) /\
  getitem (JObj [("leave", JObj [])]) "join" = Raise (KeyError "join") /\
  @SyncRepsponse.from_dict Shallow.validator Wire.api unit
    Samples.no_join 0 None
  = Raise (KeyError "join").
Proof. repeat split. Qed.
